(** * The blockchain service of brucetieu/blockchain

    A shallow embedding of [services/blockchainService] (the chain manager:
    [CreateBlockchain], [AddToBlockChain], [GetBlockchain], [GetGenesisBlock])
    and the properties of it that the specification states.

    The service is written against Go interfaces (the repository, the block
    and transaction services, the assemblers).  Calls through the stateful
    interfaces are kept as explicit events of a small program monad, so that
    the order of the calls, their arguments and their results can be stated;
    a handler gives the events a meaning over a world. *)

From Stdlib Require Import ZArith List String Lia Permutation Sorted.
From Stdlib Require Import Strings.Byte.
From stdpp Require Import base option list countable gmap strings fin_maps.

Local Open Scope string_scope.
Local Open Scope list_scope.
Local Open Scope Z_scope.

(** ** Data *)

(** Go's [[]byte]; a nil slice and an empty slice are both [[]], the code
    only ever asks for [len]. *)
Definition bytes : Type := list byte.

(** Go's [error] interface: [None] is [nil], [Some msg] an error whose
    [Error()] text is [msg]. *)
Definition error : Type := string.

(** Modelled from the spec: the [representations] package is not part of the
    sources.  A transaction has an id, a sender (empty for coinbase), a
    recipient, an amount and a free-text memo. *)
Record Transaction : Type := mkTransaction {
  ID : bytes;
  TxFrom : string;
  TxTo : string;
  TxAmount : Z;
  TxData : string
}.

(** Modelled from the spec: a block has a timestamp, its hash, the previous
    block's hash (empty for the genesis block) and its transactions.  The
    service reads [Hash], [PrevHash] and [Timestamp]. *)
Record Block : Type := mkBlock {
  Timestamp : Z;
  Hash : bytes;
  PrevHash : bytes;
  Transactions : list Transaction
}.

(** [reps.Block{}], Go's zero value. *)
Definition zeroBlock : Block := mkBlock 0 [] [] [].

(** Go's [len] on a slice. *)
Definition len {A} (s : list A) : Z := Z.of_nat (length s).

(** ** Calls through the collaborator interfaces *)

(** One constructor per interface method the service calls; the index is the
    Go result type ([(v, err)] as a pair). *)
Inductive callE : Type -> Type :=
| Repo_GetBlockchain : callE (list bytes * option error)
| Repo_GetBlock : callE (bytes * option error)
| Repo_CreateBlock (hash data : bytes) : callE (bytes * option error)
| Repo_CreateTransaction (id data : bytes) : callE (option error)
| BlockSvc_CreateBlock (txns : list Transaction) (prevHash : bytes) : callE Block
| TxnSvc_CreateCoinbaseTxn (to data : string) : callE Transaction
| TxnSvc_CreateTransaction (from to : string) (amount : Z)
    : callE (Transaction * option error).

(** Programs over these calls. *)
Inductive prog (A : Type) : Type :=
| Ret (a : A)
| Call {R : Type} (c : callE R) (k : R -> prog A).
Arguments Ret {A} a.
Arguments Call {A R} c k.

Fixpoint bind {A B} (m : prog A) (f : A -> prog B) : prog B :=
  match m with
  | Ret a => f a
  | Call c k => Call c (fun r => bind (k r) f)
  end.

#[global] Instance prog_ret : MRet prog := @Ret.
#[global] Instance prog_bind : MBind prog := fun A B f m => bind m f.

Definition call {R} (c : callE R) : prog R := Call c Ret.

(** A performed call together with what it returned. *)
Inductive event : Type :=
| EvGetBlockchain (r : list bytes * option error)
| EvGetBlock (r : bytes * option error)
| EvCreateBlock (hash data : bytes) (r : bytes * option error)
| EvCreateTransaction (id data : bytes) (r : option error)
| EvNewBlock (txns : list Transaction) (prevHash : bytes) (r : Block)
| EvNewCoinbaseTxn (to data : string) (r : Transaction)
| EvNewTransaction (from to : string) (amount : Z) (r : Transaction * option error).

Definition Ev {R : Type} (c : callE R) : R -> event :=
  match c in callE R return R -> event with
  | Repo_GetBlockchain => EvGetBlockchain
  | Repo_GetBlock => EvGetBlock
  | Repo_CreateBlock hash data => EvCreateBlock hash data
  | Repo_CreateTransaction id data => EvCreateTransaction id data
  | BlockSvc_CreateBlock txns prevHash => EvNewBlock txns prevHash
  | TxnSvc_CreateCoinbaseTxn to data => EvNewCoinbaseTxn to data
  | TxnSvc_CreateTransaction from to amount => EvNewTransaction from to amount
  end.

(** An implementation of the interfaces over a world [W]. *)
Definition handler (W : Type) : Type := forall R, callE R -> W -> R * W.

(** Running a program: the result, the final world and the calls made, in
    order. *)
Fixpoint run {W A} (h : handler W) (p : prog A) (w : W) : A * W * list event :=
  match p with
  | Ret a => (a, w, [])
  | Call c k =>
      let '(r, w1) := h _ c w in
      let '(a, w2, tr) := run h (k r) w1 in
      (a, w2, Ev c r :: tr)
  end.

(** ** The service *)

Record BlockAssemblerFac : Type := {
  ToBlockBytes : Block -> bytes;
  ToBlockStructure : bytes -> Block
}.

Record TxnAssemblerFac : Type := {
  ToTxnBytes : Transaction -> bytes
}.

(** The struct's stateless fields; the repository and the two services are
    reached through [callE]. *)
Record blockchainService : Type := {
  blockAssembler : BlockAssemblerFac;
  txnAssembler : TxnAssemblerFac
}.

Definition errNoGenesis : error :=
  "no genesis block exists, please create a blockchain first".

Definition errNoLastBlock (cause : error) : error :=
  String.append
    "error getting last block. Blockchain probably has not been created: " cause.

Definition coinbaseData : string := "First transaction in Blockchain".

Section Service.

(** Go's [sort.Slice], on the elements rather than on indices. *)
Variable sort_Slice : forall A : Type, (A -> A -> bool) -> list A -> list A.

Variable bc : blockchainService.

(** The [for _, block := range blocks] loop of [GetGenesisBlock], with its
    [break]. *)
Fixpoint findGenesis (blocks : list bytes) (genesis : Block) : Block :=
  match blocks with
  | [] => genesis
  | block :: rest =>
      let decodedB := ToBlockStructure (blockAssembler bc) block in
      if len (PrevHash decodedB) =? 0 then decodedB
      else findGenesis rest genesis
  end.

(** The returned pointer is never nil. *)
Definition GetGenesisBlock : prog (Block * option error) :=
  let genesis := zeroBlock in
  '(blocks, err) ← call Repo_GetBlockchain;
  match err with
  | Some e => mret (zeroBlock, Some e)
  | None =>
      let genesis := findGenesis blocks genesis in
      if (len (Hash genesis) =? 0) && (len (PrevHash genesis) =? 0)
      then mret (genesis, Some errNoGenesis)
      else mret (genesis, None)
  end.

(** The block pointer is [None] where the code returns [nil]. *)
Definition CreateBlockchain (to : string) : prog (option Block * bool * option error) :=
  let doesExist := false in
  '(genesisBlock, err) ← GetGenesisBlock;
  match err with
  | Some _ =>
      coinbaseTxn ← call (TxnSvc_CreateCoinbaseTxn to coinbaseData);
      newBlock ← call (BlockSvc_CreateBlock [coinbaseTxn] []);
      let serializedBlock := ToBlockBytes (blockAssembler bc) newBlock in
      '(newBlockchain, err) ← call (Repo_CreateBlock (Hash newBlock) serializedBlock);
      match err with
      | Some e => mret (None, doesExist, Some e)
      | None =>
          mret (Some (ToBlockStructure (blockAssembler bc) newBlockchain), doesExist, err)
      end
  | None =>
      let doesExist := if len (PrevHash genesisBlock) =? 0 then true else doesExist in
      mret (Some genesisBlock, doesExist, None)
  end.

Definition AddToBlockChain (from to : string) (amount : Z)
  : prog (option Block * option error) :=
  '(lastBlock, err) ← call Repo_GetBlock;
  match err with
  | Some e => mret (Some zeroBlock, Some (errNoLastBlock e))
  | None =>
      let decodedLastBlock := ToBlockStructure (blockAssembler bc) lastBlock in
      '(newTxn, err) ← call (TxnSvc_CreateTransaction from to amount);
      match err with
      | Some e => mret (Some zeroBlock, Some e)
      | None =>
          newBlock ← call (BlockSvc_CreateBlock [newTxn] (Hash decodedLastBlock));
          '(_, err) ← call (Repo_CreateBlock (Hash newBlock)
                               (ToBlockBytes (blockAssembler bc) newBlock));
          match err with
          | Some e => mret (Some zeroBlock, Some e)
          | None =>
              err ← call (Repo_CreateTransaction (ID newTxn)
                            (ToTxnBytes (txnAssembler bc) newTxn));
              match err with
              | Some e => mret (Some zeroBlock, Some e)
              | None => mret (Some newBlock, err)
              end
          end
      end
  end.

(** The [for _, block := range blocks] loop of [GetBlockchain]. *)
Fixpoint decodeAll (blocks : list bytes) (allBlocks : list Block) : list Block :=
  match blocks with
  | [] => allBlocks
  | block :: rest =>
      let decodedB := ToBlockStructure (blockAssembler bc) block in
      decodeAll rest (allBlocks ++ [decodedB])
  end.

Definition GetBlockchain : prog (list Block * option error) :=
  let allBlocks := [] in
  '(blocks, err) ← call Repo_GetBlockchain;
  match err with
  | Some e => mret (allBlocks, Some e)
  | None =>
      let allBlocks := decodeAll blocks allBlocks in
      let allBlocks :=
        sort_Slice Block (fun bi bj => Timestamp bi >? Timestamp bj) allBlocks in
      mret (allBlocks, None)
  end.

End Service.

(** ** Notions the properties are stated with *)

(** A block is a genesis block when its previous hash is empty. *)
Definition isGenesis (b : Block) : bool := len (PrevHash b) =? 0.

(** In the spec's words: the first decoded persisted block whose previous
    hash is empty. *)
Definition firstGenesis (bc : blockchainService) (blocks : list bytes) : option Block :=
  List.find isGenesis (map (ToBlockStructure (blockAssembler bc)) blocks).

(** The comparison handed to [sort.Slice]. *)
Definition newerFirst (bi bj : Block) : bool := Timestamp bi >? Timestamp bj.

(** The error a call reported, if it reported one. *)
Definition failure (ev : event) : option error :=
  match ev with
  | EvGetBlockchain (_, err) => err
  | EvGetBlock (_, err) => err
  | EvCreateBlock _ _ (_, err) => err
  | EvCreateTransaction _ _ err => err
  | EvNewTransaction _ _ _ (_, err) => err
  | EvNewBlock _ _ _ => None
  | EvNewCoinbaseTxn _ _ _ => None
  end.

Definition isBlockWrite (ev : event) : bool :=
  match ev with EvCreateBlock _ _ _ => true | _ => false end.

Definition isTxnWrite (ev : event) : bool :=
  match ev with EvCreateTransaction _ _ _ => true | _ => false end.

Definition isWrite (ev : event) : bool := isBlockWrite ev || isTxnWrite ev.

(** Every way [AddToBlockChain] can go from a world [w]: the answers of the
    collaborators, the result, the final world and the calls made. *)
Inductive AddOutcome {W} (h : handler W) (bc : blockchainService)
    (from to : string) (amount : Z) (w : W)
  : option Block * option error -> W -> list event -> Prop :=
| NoLastBlock lastBlock e w1 :
    h _ Repo_GetBlock w = ((lastBlock, Some e), w1) ->
    AddOutcome h bc from to amount w
      (Some zeroBlock, Some (errNoLastBlock e)) w1
      [EvGetBlock (lastBlock, Some e)]
| TxnRejected lastBlock w1 newTxn e w2 :
    h _ Repo_GetBlock w = ((lastBlock, None), w1) ->
    h _ (TxnSvc_CreateTransaction from to amount) w1 = ((newTxn, Some e), w2) ->
    AddOutcome h bc from to amount w
      (Some zeroBlock, Some e) w2
      [EvGetBlock (lastBlock, None);
       EvNewTransaction from to amount (newTxn, Some e)]
| BlockWriteFailed lastBlock w1 newTxn w2 newBlock w3 out e w4 :
    let prevHash := Hash (ToBlockStructure (blockAssembler bc) lastBlock) in
    let data := ToBlockBytes (blockAssembler bc) newBlock in
    h _ Repo_GetBlock w = ((lastBlock, None), w1) ->
    h _ (TxnSvc_CreateTransaction from to amount) w1 = ((newTxn, None), w2) ->
    h _ (BlockSvc_CreateBlock [newTxn] prevHash) w2 = (newBlock, w3) ->
    h _ (Repo_CreateBlock (Hash newBlock) data) w3 = ((out, Some e), w4) ->
    AddOutcome h bc from to amount w
      (Some zeroBlock, Some e) w4
      [EvGetBlock (lastBlock, None);
       EvNewTransaction from to amount (newTxn, None);
       EvNewBlock [newTxn] prevHash newBlock;
       EvCreateBlock (Hash newBlock) data (out, Some e)]
| TxnWriteFailed lastBlock w1 newTxn w2 newBlock w3 out w4 e w5 :
    let prevHash := Hash (ToBlockStructure (blockAssembler bc) lastBlock) in
    let data := ToBlockBytes (blockAssembler bc) newBlock in
    let txnData := ToTxnBytes (txnAssembler bc) newTxn in
    h _ Repo_GetBlock w = ((lastBlock, None), w1) ->
    h _ (TxnSvc_CreateTransaction from to amount) w1 = ((newTxn, None), w2) ->
    h _ (BlockSvc_CreateBlock [newTxn] prevHash) w2 = (newBlock, w3) ->
    h _ (Repo_CreateBlock (Hash newBlock) data) w3 = ((out, None), w4) ->
    h _ (Repo_CreateTransaction (ID newTxn) txnData) w4 = (Some e, w5) ->
    AddOutcome h bc from to amount w
      (Some zeroBlock, Some e) w5
      [EvGetBlock (lastBlock, None);
       EvNewTransaction from to amount (newTxn, None);
       EvNewBlock [newTxn] prevHash newBlock;
       EvCreateBlock (Hash newBlock) data (out, None);
       EvCreateTransaction (ID newTxn) txnData (Some e)]
| Added lastBlock w1 newTxn w2 newBlock w3 out w4 w5 :
    let prevHash := Hash (ToBlockStructure (blockAssembler bc) lastBlock) in
    let data := ToBlockBytes (blockAssembler bc) newBlock in
    let txnData := ToTxnBytes (txnAssembler bc) newTxn in
    h _ Repo_GetBlock w = ((lastBlock, None), w1) ->
    h _ (TxnSvc_CreateTransaction from to amount) w1 = ((newTxn, None), w2) ->
    h _ (BlockSvc_CreateBlock [newTxn] prevHash) w2 = (newBlock, w3) ->
    h _ (Repo_CreateBlock (Hash newBlock) data) w3 = ((out, None), w4) ->
    h _ (Repo_CreateTransaction (ID newTxn) txnData) w4 = (None, w5) ->
    AddOutcome h bc from to amount w
      (Some newBlock, None) w5
      [EvGetBlock (lastBlock, None);
       EvNewTransaction from to amount (newTxn, None);
       EvNewBlock [newTxn] prevHash newBlock;
       EvCreateBlock (Hash newBlock) data (out, None);
       EvCreateTransaction (ID newTxn) txnData None].

(** ** What the collaborators are relied on for *)

(** The comparisons [sort.Slice] is meant for: asymmetric, and being not
    less is transitive. *)
Definition strictWeakOrder {A : Type} (less : A -> A -> bool) : Prop :=
  (forall a b, less a b = true -> less b a = false) /\
  (forall a b c, less a b = false -> less b c = false -> less a c = false).

(** What [sort.Slice] promises for such a [less]: the same elements, and no
    element less than one before it.  Nothing is promised about ties. *)
Definition sortContract (sort_Slice : forall A : Type, (A -> A -> bool) -> list A -> list A)
  : Prop :=
  forall (A : Type) (less : A -> A -> bool) (l : list A),
    strictWeakOrder less ->
    Permutation (sort_Slice A less l) l /\
    StronglySorted (fun a b => less b a = false) (sort_Slice A less l).

(** What the block factory is for: the block it makes carries the
    transactions and the previous hash it was given. *)
Definition blockFactoryContract {W} (h : handler W) : Prop :=
  forall txns prevHash w,
    let b := fst (h _ (BlockSvc_CreateBlock txns prevHash) w) in
    Transactions b = txns /\ PrevHash b = prevHash.

(** The coinbase factory pays the recipient it is given and carries the memo
    it is given. *)
Definition coinbaseContract {W} (h : handler W) : Prop :=
  forall to data w,
    let t := fst (h _ (TxnSvc_CreateCoinbaseTxn to data) w) in
    TxTo t = to /\ TxData t = data.

(** A successful store-block hands back the bytes it stored. *)
Definition storeEchoContract {W} (h : handler W) : Prop :=
  forall hash data w out w',
    h _ (Repo_CreateBlock hash data) w = ((out, None), w') -> out = data.

(** Decoding undoes encoding. *)
Definition codecContract (bc : blockchainService) : Prop :=
  forall b, ToBlockStructure (blockAssembler bc) (ToBlockBytes (blockAssembler bc) b) = b.

(** ** An in-memory implementation of the collaborators

  The repository, the factories and the assemblers are not part of the
  sources; this is the fake the service runs against where a concrete
  world is needed. *)

#[global] Instance byte_eq_dec : EqDecision byte := Byte.byte_eq_dec.
#[global] Instance byte_countable : Countable byte :=
inj_countable Byte.to_N Byte.of_N Byte.of_to_N.

Module Mem.

(** *** Assemblers: a field-delimited byte format *)

(** A field is written byte by byte, each behind a [x01] marker, and closed
    by [x00]. *)
Definition enc_field (f : bytes) : bytes :=
  flat_map (fun b => [x01; b]) f ++ [x00].

Fixpoint fields (cur : bytes) (l : bytes) : list bytes :=
  match l with
  | x01 :: b :: rest => fields (cur ++ [b]) rest
  | x00 :: rest => cur :: fields [] rest
  | _ => []
  end.

Fixpoint pos_bits (p : positive) : bytes :=
  match p with
  | xH => []
  | xO q => x00 :: pos_bits q
  | xI q => x01 :: pos_bits q
  end.

Fixpoint bits_pos (l : bytes) : positive :=
  match l with
  | [] => xH
  | x00 :: rest => xO (bits_pos rest)
  | _ :: rest => xI (bits_pos rest)
  end.

Definition Z_to_bytes (z : Z) : bytes :=
  match z with
  | Z0 => [x00]
  | Zpos p => x01 :: pos_bits p
  | Zneg p => x02 :: pos_bits p
  end.

Definition Z_of_bytes (l : bytes) : Z :=
  match l with
  | x01 :: rest => Zpos (bits_pos rest)
  | x02 :: rest => Zneg (bits_pos rest)
  | _ => Z0
  end.

Definition txn_fields (t : Transaction) : list bytes :=
  [ID t; list_byte_of_string (TxFrom t); list_byte_of_string (TxTo t);
   Z_to_bytes (TxAmount t); list_byte_of_string (TxData t)].

Fixpoint txns_of_fields (fs : list bytes) : list Transaction :=
  match fs with
  | i :: f :: t :: a :: d :: rest =>
      mkTransaction i (string_of_list_byte f) (string_of_list_byte t)
        (Z_of_bytes a) (string_of_list_byte d) :: txns_of_fields rest
  | _ => []
  end.

Definition block_fields (b : Block) : list bytes :=
  Z_to_bytes (Timestamp b) :: Hash b :: PrevHash b
    :: flat_map txn_fields (Transactions b).

(** Bytes that are not a block decode to the zero value. *)
Definition block_of_fields (fs : list bytes) : Block :=
  match fs with
  | ts :: h :: p :: rest => mkBlock (Z_of_bytes ts) h p (txns_of_fields rest)
  | _ => zeroBlock
  end.

(** Modelled from the spec: the codec boundary, serialize(Block), 
    deserialize(bytes) and serialize(Transaction). *)
Definition BlockAssembler : BlockAssemblerFac := {|
  ToBlockBytes := fun b => flat_map enc_field (block_fields b);
  ToBlockStructure := fun data => block_of_fields (fields [] data)
|}.

Definition TxnAssembler : TxnAssemblerFac := {|
  ToTxnBytes := fun t => flat_map enc_field (txn_fields t)
|}.

(** [NewBlockchainService]: the assemblers are the package's own. *)
Definition service : blockchainService := {|
  blockAssembler := BlockAssembler;
  txnAssembler := TxnAssembler
|}.

(** *** The repository *)

(** Modelled from the spec: the persistence boundary, a key-value store of
    serialized blocks by hash and of serialized transactions by id, and the
    last-block pointer (the hash of the block stored last). *)
Record Store : Type := mkStore {
  blocks : gmap bytes bytes;
  txns : gmap bytes bytes;
  lastBlock : option bytes
}.

Definition emptyStore : Store := mkStore ∅ ∅ None.

(** The world of the fake: the store, the storage faults still to come
    (one flag per enumeration, one per write; [true] makes that call fail
    with a storage error, an exhausted schedule means no fault), the clock
    the block factory reads, the counter transaction ids come from, and the
    time that passes after each block is built (in clock units, possibly
    none; one unit once the schedule is exhausted). *)
Record World : Type := mkWorld {
  store : Store;
  enumFaults : list bool;
  writeFaults : list bool;
  clock : Z;
  nextId : Z;
  ticks : list nat
}.

Definition errStorage : error := "storage error".
Definition errNotInitialized : error := "last block not found".
Definition errAmount : error := "invalid amount".

Definition nextFault (fs : list bool) : bool * list bool :=
  match fs with
  | [] => (false, [])
  | f :: rest => (f, rest)
  end.

Definition nextTick (ts : list nat) : Z * list nat :=
  match ts with
  | [] => (1, [])
  | t :: rest => (Z.of_nat t, rest)
  end.

(** The serialized blocks the store holds. *)
Definition persisted (s : Store) : list bytes :=
  map snd (map_to_list (blocks s)).

(** Modelled from the spec: enumerate-blocks; fails with a storage error. *)
Definition repoGetBlockchain (w : World) : (list bytes * option error) * World :=
  let '(fault, rest) := nextFault (enumFaults w) in
  let w' := mkWorld (store w) rest (writeFaults w) (clock w) (nextId w) (ticks w) in
  if fault then (([], Some errStorage), w')
  else ((persisted (store w), None), w').

(** Modelled from the spec: get-last-block; fails if there is none. *)
Definition repoGetBlock (w : World) : (bytes * option error) * World :=
  match lastBlock (store w) with
  | None => (([], Some errNotInitialized), w)
  | Some h =>
      match blocks (store w) !! h with
      | None => (([], Some errNotInitialized), w)
      | Some data => ((data, None), w)
      end
  end.

(** Modelled from the spec: store-block(hash, bytes), which also moves the
    last-block pointer; one logically atomic write, or a storage error that
    leaves the store as it was.  The stored bytes are handed back. *)
Definition repoCreateBlock (hash data : bytes) (w : World)
  : (bytes * option error) * World :=
  let '(fault, rest) := nextFault (writeFaults w) in
  if fault then
    (([], Some errStorage),
     mkWorld (store w) (enumFaults w) rest (clock w) (nextId w) (ticks w))
  else
    ((data, None),
     mkWorld (mkStore (<[hash := data]> (blocks (store w))) (txns (store w)) (Some hash))
       (enumFaults w) rest (clock w) (nextId w) (ticks w)).

(** Modelled from the spec: store-transaction(id, bytes). *)
Definition repoCreateTransaction (id data : bytes) (w : World)
  : option error * World :=
  let '(fault, rest) := nextFault (writeFaults w) in
  if fault then
    (Some errStorage,
     mkWorld (store w) (enumFaults w) rest (clock w) (nextId w) (ticks w))
  else
    (None,
     mkWorld (mkStore (blocks (store w)) (<[id := data]> (txns (store w)))
                (lastBlock (store w)))
       (enumFaults w) rest (clock w) (nextId w) (ticks w)).

(** *** The factories *)

Definition freshId (w : World) : bytes * World :=
  (Z_to_bytes (nextId w),
   mkWorld (store w) (enumFaults w) (writeFaults w) (clock w) (nextId w + 1) (ticks w)).

(** Modelled from the spec: make-coinbase-transaction(to, memo); no sender. *)
Definition createCoinbaseTxn (to data : string) (w : World) : Transaction * World :=
  let '(id, w') := freshId w in
  (mkTransaction id "" to 0 data, w').

(** Modelled from the spec: make-transaction(from, to, amount), an error on
    an invalid (negative) amount. *)
Definition createTransaction (from to : string) (amount : Z) (w : World)
  : (Transaction * option error) * World :=
  if amount <? 0 then ((mkTransaction [] "" "" 0 "", Some errAmount), w)
  else
    let '(id, w') := freshId w in
    ((mkTransaction id from to amount "", None), w').

(** A stand-in for the block hash: the timestamp's bytes and a one-byte sum
    over the previous hash and the transaction ids. *)
Definition digest (ts : Z) (prevHash : bytes) (txns : list Transaction) : bytes :=
  let sum := fold_right (fun b acc => (Byte.to_N b + acc)%N) 0%N
               (prevHash ++ flat_map ID txns) in
  Z_to_bytes ts ++ [default x00 (Byte.of_N (sum mod 256)%N)].

(** Modelled from the spec: make-block(transactions, prevHash), computing
    the hash and the timestamp.  Timestamps never decrease from one block to
    the next; two blocks built within the same clock unit get the same one. *)
Definition createBlock (txns : list Transaction) (prevHash : bytes) (w : World)
  : Block * World :=
  let ts := clock w in
  (mkBlock ts (digest ts prevHash txns) prevHash txns,
   mkWorld (store w) (enumFaults w) (writeFaults w)
     (clock w + fst (nextTick (ticks w))) (nextId w) (snd (nextTick (ticks w)))).

Definition handle : handler World :=
  fun R c =>
    match c in callE R return World -> R * World with
    | Repo_GetBlockchain => repoGetBlockchain
    | Repo_GetBlock => repoGetBlock
    | Repo_CreateBlock hash data => repoCreateBlock hash data
    | Repo_CreateTransaction id data => repoCreateTransaction id data
    | BlockSvc_CreateBlock txns prevHash => createBlock txns prevHash
    | TxnSvc_CreateCoinbaseTxn to data => createCoinbaseTxn to data
    | TxnSvc_CreateTransaction from to amount => createTransaction from to amount
    end.

(** Go's insertion sort ([insertionSortLessFunc], what [sort.Slice] runs on
    short slices): each element sinks left while it is less than its left
    neighbour. *)
Fixpoint sink {A} (less : A -> A -> bool) (x : A) (sorted_rev : list A) : list A :=
  match sorted_rev with
  | [] => [x]
  | y :: rest => if less x y then y :: sink less x rest else x :: y :: rest
  end.

Definition insertionSort (A : Type) (less : A -> A -> bool) (l : list A) : list A :=
  rev (fold_left (fun acc x => sink less x acc) l []).

(** A fresh world: nothing persisted, no storage faults, a clock that moves
    on after every block. *)
Definition world0 : World := mkWorld emptyStore [] [] 1 1 [].

(** The store holds the genesis block [g] and no other block. *)
Definition holdsGenesis (g : Block) (s : Store) : Prop :=
  blocks s = {[ Hash g := ToBlockBytes BlockAssembler g ]} /\
  PrevHash g = [] /\ Hash g <> [].

(** [CreateBlockchain] for each recipient in turn: the results with the
    calls each made, and the final world. *)
Fixpoint createAll (tos : list string) (w : World)
  : list (option Block * bool * option error * list event) * World :=
  match tos with
  | [] => ([], w)
  | to :: rest =>
      let '(res, w1, tr) := run handle (CreateBlockchain service to) w in
      let '(rs, w2) := createAll rest w1 in
      ((res, tr) :: rs, w2)
  end.

End Mem.

(** ** Worlds used as examples *)

Module Examples.
Import Mem.


(** The world after [CreateBlockchain "alice"] on a fresh world. *)
Definition aliceWorld : World :=
  snd (fst (run handle (CreateBlockchain service "alice") world0)).

(** ... and after [AddToBlockChain "alice" "bob" 10]. *)
Definition bobWorld : World :=
  snd (fst (run handle (AddToBlockChain service "alice" "bob" 10) aliceWorld)).

(** The same collaborators, enumerating the blocks in the opposite order. *)
Definition reversed (h : handler World) : handler World :=
  fun R c =>
    match c in callE R return (World -> R * World) -> World -> R * World with
    | Repo_GetBlockchain =>
        fun k w => let '((bs, err), w') := k w in ((rev bs, err), w')
    | _ => fun k => k
    end (h R c).

(** The world after [CreateBlockchain "alice"], where the second write to
    come fails: a block write goes through, the transaction write after it
    does not. *)
Definition txnFaultWorld : World :=
  mkWorld (store aliceWorld) [] [false; true] (clock aliceWorld) (nextId aliceWorld)
    (ticks aliceWorld).

(** A fresh world whose second enumeration fails with a storage error. *)
Definition enumFaultWorld : World := mkWorld emptyStore [false; true] [] 1 1 [].

End Examples.

(** ** The creation, case by case *)

(** What [GetGenesisBlock] makes of the enumeration's answer. *)
Definition lookup (bc : blockchainService) (r : list bytes * option error)
  : Block * option error :=
  match snd r with
  | Some e => (zeroBlock, Some e)
  | None =>
      let genesis := default zeroBlock (firstGenesis bc (fst r)) in
      (genesis,
       if (len (Hash genesis) =? 0) && (len (PrevHash genesis) =? 0)
       then Some errNoGenesis else None)
  end.

(** Every way [CreateBlockchain] can go from a world [w]: the answers of the
    collaborators, the result, the final world and the calls made. *)
Inductive CreateOutcome {W} (h : handler W) (bc : blockchainService)
    (to : string) (w : W)
  : option Block * bool * option error -> W -> list event -> Prop :=
| GenesisFound r w1 genesis :
    h _ Repo_GetBlockchain w = (r, w1) ->
    lookup bc r = (genesis, None) ->
    CreateOutcome h bc to w
      (Some genesis, true, None) w1
      [EvGetBlockchain r]
| GenesisCreated r w1 genesis e0 coinbaseTxn w2 newBlock w3 out w4 :
    let data := ToBlockBytes (blockAssembler bc) newBlock in
    h _ Repo_GetBlockchain w = (r, w1) ->
    lookup bc r = (genesis, Some e0) ->
    h _ (TxnSvc_CreateCoinbaseTxn to coinbaseData) w1 = (coinbaseTxn, w2) ->
    h _ (BlockSvc_CreateBlock [coinbaseTxn] []) w2 = (newBlock, w3) ->
    h _ (Repo_CreateBlock (Hash newBlock) data) w3 = ((out, None), w4) ->
    CreateOutcome h bc to w
      (Some (ToBlockStructure (blockAssembler bc) out), false, None) w4
      [EvGetBlockchain r;
       EvNewCoinbaseTxn to coinbaseData coinbaseTxn;
       EvNewBlock [coinbaseTxn] [] newBlock;
       EvCreateBlock (Hash newBlock) data (out, None)]
| GenesisWriteFailed r w1 genesis e0 coinbaseTxn w2 newBlock w3 out e w4 :
    let data := ToBlockBytes (blockAssembler bc) newBlock in
    h _ Repo_GetBlockchain w = (r, w1) ->
    lookup bc r = (genesis, Some e0) ->
    h _ (TxnSvc_CreateCoinbaseTxn to coinbaseData) w1 = (coinbaseTxn, w2) ->
    h _ (BlockSvc_CreateBlock [coinbaseTxn] []) w2 = (newBlock, w3) ->
    h _ (Repo_CreateBlock (Hash newBlock) data) w3 = ((out, Some e), w4) ->
    CreateOutcome h bc to w
      (None, false, Some e) w4
      [EvGetBlockchain r;
       EvNewCoinbaseTxn to coinbaseData coinbaseTxn;
       EvNewBlock [coinbaseTxn] [] newBlock;
       EvCreateBlock (Hash newBlock) data (out, Some e)].

(** A read of the last-block pointer. *)
Definition isLastBlockRead (ev : event) : bool :=
  match ev with EvGetBlock _ => true | _ => false end.

(** ** The HTTP handlers

    [handlers/blockchainHandler.go], the callers of the service.  A handler
    receives the request's JSON body through [ShouldBindJSON] and answers
    through [c.JSON]. *)

Module Handlers.

(** [net/http]'s status codes. *)
Definition StatusOK : Z := 200.
Definition StatusCreated : Z := 201.
Definition StatusBadRequest : Z := 400.
Definition StatusNotFound : Z := 404.
Definition StatusInternalServerError : Z := 500.

(** Modelled from the spec: the request inputs of the [representations]
    package, by the fields the handlers read. *)
Record CreateBlockchainInput : Type := mkCreateBlockchainInput {
  CreateBlockchainInput_To : string
}.

Record CreateBlockInput : Type := mkCreateBlockInput {
  CreateBlockInput_From : string;
  CreateBlockInput_To : string;
  CreateBlockInput_Amount : Z
}.

Section Handlers.

(** What [ToBlockMap] makes of a block, a [map[string]interface{}] whose
    keys the handlers never look at. *)
Context {BlockMap : Type}.

(** The values the handlers put in a [gin.H]. *)
Inductive value : Type :=
| VString (s : string)
| VBlock (m : BlockMap)
| VBlocks (l : list BlockMap).

(** One [c.JSON(code, obj)]. *)
Record Response : Type := JSON {
  code : Z;
  obj : gmap string value
}.

(** The [BlockchainHandler] struct: the service (its assemblers and the sort
    it uses) and the assembler's [ToBlockMap]. *)
Variable sort_Slice : forall A : Type, (A -> A -> bool) -> list A -> list A.
Variable bc : blockchainService.
Variable ToBlockMap : Block -> BlockMap.

(** A handler's run ends with the responses it wrote, or [None] when it
    panicked on a nil pointer.  [input] is the body as bound and [bindErr]
    what [ShouldBindJSON] returned. *)
Definition CreateBlockchain (input : CreateBlockchainInput) (bindErr : option error)
  : prog (option (list Response)) :=
  match bindErr with
  | Some err =>
      mret (Some [JSON StatusBadRequest {[ "error" := VString err ]}])
  | None =>
      '(decodedGenesis, exists_, err) ←
        CreateBlockchain bc (CreateBlockchainInput_To input);
      match err with
      | Some err =>
          mret (Some [JSON StatusNotFound {[ "error" := VString err ]}])
      | None =>
          match decodedGenesis with
          | None => mret None
          | Some genesis =>
              let data := ToBlockMap genesis in
              if (exists_ : bool) then
                mret (Some [JSON StatusOK
                              {[ "message" := VString "Blockchain already exists." ]}])
              else
                mret (Some [JSON StatusCreated
                              (<[ "data" := VBlock data ]>
                                 {[ "message" := VString "Blockchain created." ]})])
          end
      end
  end.

(** [ToBlockMap] is given the block the returned pointer refers to. *)
Definition AddToBlockchain (input : CreateBlockInput) (bindErr : option error)
  : prog (option (list Response)) :=
  match bindErr with
  | Some err =>
      mret (Some [JSON StatusBadRequest {[ "error" := VString err ]}])
  | None =>
      '(newBlock, err) ←
        AddToBlockChain bc (CreateBlockInput_From input) (CreateBlockInput_To input)
          (CreateBlockInput_Amount input);
      match err with
      | Some err =>
          mret (Some [JSON StatusNotFound {[ "error" := VString err ]}])
      | None =>
          match newBlock with
          | None => mret None
          | Some newBlock =>
              let data := ToBlockMap newBlock in
              mret (Some [JSON StatusCreated {[ "data" := VBlock data ]}])
          end
      end
  end.

(** The [for _, block := range blockchain] loop of [GetBlockchain]. *)
Fixpoint blockMaps (blockchain : list Block) (data : list BlockMap) : list BlockMap :=
  match blockchain with
  | [] => data
  | block :: rest => blockMaps rest (data ++ [ToBlockMap block])
  end.

Definition GetBlockchain : prog (option (list Response)) :=
  '(blockchain, err) ← GetBlockchain sort_Slice bc;
  match err with
  | Some err =>
      mret (Some [JSON StatusInternalServerError {[ "error" := VString err ]}])
  | None =>
      let data := blockMaps blockchain [] in
      mret (Some [JSON StatusOK {[ "data" := VBlocks data ]}])
  end.

End Handlers.

End Handlers.

(** ** More example worlds *)

Module MoreExamples.
Import Mem.

(** A fresh world whose first write fails with a storage error. *)
Definition writeFaultWorld : World := mkWorld emptyStore [] [true] 1 1 [].

(** The world after [CreateBlockchain "alice"], with the next enumeration
    failing. *)
Definition lookupFaultWorld : World :=
  snd (fst (run handle (CreateBlockchain service "alice") Examples.enumFaultWorld)).

End MoreExamples.

(** ** Running programs *)

Lemma run_bind {W A B} (h : handler W) (m : prog A) (f : A -> prog B) (w : W) :
  run h (bind m f) w =
  let '(a, w1, t1) := run h m w in
  let '(b, w2, t2) := run h (f a) w1 in
  (b, w2, t1 ++ t2).
Proof.
  revert w. induction m as [a | R c k IH]; intros w; simpl.
  - destruct (run h (f a) w) as [[b w2] t2]. reflexivity.
  - destruct (h R c w) as [r w1]. rewrite IH.
    destruct (run h (k r) w1) as [[a w2] t1].
    destruct (run h (f a) w2) as [[b w3] t2]. reflexivity.
Qed.

(** ** The genesis lookup *)

Lemma len_0 {A} (s : list A) : (len s =? 0) = true <-> s = [].
Proof.
  unfold len. destruct s; simpl; split; intros H; try reflexivity; discriminate.
Qed.

Lemma isGenesis_true (b : Block) : isGenesis b = true <-> PrevHash b = [].
Proof. apply len_0. Qed.

Lemma findGenesis_firstGenesis bc blocks genesis :
  findGenesis bc blocks genesis = default genesis (firstGenesis bc blocks).
Proof.
  unfold firstGenesis. induction blocks as [| block rest IH]; simpl; [reflexivity |].
  fold (isGenesis (ToBlockStructure (blockAssembler bc) block)).
  destruct (isGenesis _); [reflexivity | exact IH].
Qed.


Lemma firstGenesis_Some bc blocks b :
  firstGenesis bc blocks = Some b ->
  exists pre data post,
    blocks = pre ++ data :: post /\
    b = ToBlockStructure (blockAssembler bc) data /\
    PrevHash b = [] /\
    (forall d, In d pre -> PrevHash (ToBlockStructure (blockAssembler bc) d) <> []).
Proof.
  unfold firstGenesis. induction blocks as [| block rest IH]; simpl; [discriminate |].
  destruct (isGenesis (ToBlockStructure (blockAssembler bc) block)) eqn:E.
  - intros [= <-]. exists [], block, rest. simpl.
    repeat split; [apply isGenesis_true, E | intros d []].
  - intros H. destruct (IH H) as (pre & data & post & -> & -> & Hp & Hpre).
    exists (block :: pre), data, post. repeat split; [exact Hp |].
    intros d [<- | Hin]; [| apply Hpre, Hin].
    intros Hp'. apply isGenesis_true in Hp'. congruence.
Qed.

(** What [GetGenesisBlock] does once the enumeration has answered. *)
Lemma GetGenesisBlock_run bc {W} (h : handler W) (w : W) blocks err w1 :
  h _ Repo_GetBlockchain w = ((blocks, err), w1) ->
  run h (GetGenesisBlock bc) w =
  (match err with
   | Some e => (zeroBlock, Some e)
   | None =>
       let genesis := default zeroBlock (firstGenesis bc blocks) in
       (genesis,
        if (len (Hash genesis) =? 0) && (len (PrevHash genesis) =? 0)
        then Some errNoGenesis else None)
   end, w1, [EvGetBlockchain (blocks, err)]).
Proof.
  intros E. unfold GetGenesisBlock, call, mbind, prog_bind. simpl. rewrite E.
  destruct err as [e |]; simpl; [reflexivity |].
  rewrite findGenesis_firstGenesis.
  destruct (_ && _); reflexivity.
Qed.


Lemma GetGenesisBlock_success_is_genesis bc {W} (h : handler W) (w : W) genesis w1 tr1 :
  run h (GetGenesisBlock bc) w = ((genesis, None), w1, tr1) ->
  PrevHash genesis = [] /\ Hash genesis <> [].
Proof.
  destruct (h _ Repo_GetBlockchain w) as [[blocks err] w0] eqn:E.
  rewrite (GetGenesisBlock_run bc h w blocks err w0 E).
  destruct err as [e |]; [discriminate |]. cbv zeta.
  destruct (firstGenesis bc blocks) as [b |] eqn:F; simpl; [| discriminate].
  destruct (firstGenesis_Some _ _ _ F) as (_ & _ & _ & _ & _ & Hp & _).
  rewrite Hp. simpl. destruct (len (Hash b) =? 0) eqn:Hh; simpl; [discriminate |].
  intros [= <- _ _]. split; [exact Hp |].
  intros Hh'. apply len_0 in Hh'. congruence.
Qed.

Lemma CreateBlockchain_found bc {W} (h : handler W) (w : W) to genesis w1 tr1 :
  run h (GetGenesisBlock bc) w = ((genesis, None), w1, tr1) ->
  run h (CreateBlockchain bc to) w =
  ((Some genesis, isGenesis genesis, None), w1, tr1).
Proof.
  intros E. unfold CreateBlockchain, mbind, prog_bind. rewrite run_bind, E. simpl.
  rewrite app_nil_r. unfold isGenesis.
  destruct (len (PrevHash genesis) =? 0); reflexivity.
Qed.

(** C8.  When the genesis lookup succeeds, [CreateBlockchain] returns the
    found block, makes no further call, and its flag is whether that block's
    previous hash is empty, which is true for whatever the lookup returns. *)
Theorem CreateBlockchain_existing_flag bc {W} (h : handler W) (w : W) to genesis w1 tr1 :
  run h (GetGenesisBlock bc) w = ((genesis, None), w1, tr1) ->
  run h (CreateBlockchain bc to) w =
    ((Some genesis, isGenesis genesis, None), w1, tr1) /\
  isGenesis genesis = true.
Proof.
  intros E. split; [apply CreateBlockchain_found, E |].
  apply isGenesis_true. eapply GetGenesisBlock_success_is_genesis, E.
Qed.

Lemma find_Permutation_unique {A} (f : A -> bool) (l1 l2 : list A) :
  Permutation l1 l2 ->
  (length (List.filter f l1) <= 1)%nat ->
  List.find f l1 = List.find f l2.
Proof.
  intros HP Hlen.
  assert (Hhead : forall l, List.find f l = head (List.filter f l)).
  { induction l as [| x l IH]; simpl; [reflexivity |].
    destruct (f x); [reflexivity | exact IH]. }
  rewrite !Hhead.
  assert (HPf : Permutation (List.filter f l1) (List.filter f l2)).
  { clear Hlen Hhead. induction HP; simpl.
    - constructor.
    - destruct (f x); [constructor |]; assumption.
    - destruct (f x), (f y); try reflexivity; apply perm_swap.
    - etransitivity; eassumption. }
  destruct (List.filter f l1) as [| a [| b t]] eqn:F1.
  - apply Permutation_nil in HPf. rewrite HPf. reflexivity.
  - apply Permutation_length_1_inv in HPf. rewrite HPf. reflexivity.
  - simpl in Hlen. lia.
Qed.

(** C9.  Two enumerations of the same persisted blocks, in whatever order
    each store yields them, give the same answer from [GetGenesisBlock]
    (block and error) when at most one block has an empty previous hash. *)
Theorem GetGenesisBlock_any_order bc {W1 W2} (h1 : handler W1) (h2 : handler W2)
    (w1 : W1) (w2 : W2) blocks1 blocks2 w1' w2' :
  h1 _ Repo_GetBlockchain w1 = ((blocks1, None), w1') ->
  h2 _ Repo_GetBlockchain w2 = ((blocks2, None), w2') ->
  Permutation blocks1 blocks2 ->
  (length (List.filter isGenesis
             (map (ToBlockStructure (blockAssembler bc)) blocks1)) <= 1)%nat ->
  fst (fst (run h1 (GetGenesisBlock bc) w1)) = fst (fst (run h2 (GetGenesisBlock bc) w2)).
Proof.
  intros E1 E2 HP Hone.
  rewrite (GetGenesisBlock_run bc h1 w1 blocks1 None w1' E1).
  rewrite (GetGenesisBlock_run bc h2 w2 blocks2 None w2' E2).
  cbv zeta. simpl. unfold firstGenesis.
  rewrite (find_Permutation_unique isGenesis _
             (map (ToBlockStructure (blockAssembler bc)) blocks2));
    [reflexivity | apply Permutation_map, HP | exact Hone].
Qed.

(** ** The append *)

Lemma AddToBlockChain_outcome bc {W} (h : handler W) (w : W) from to amount res w' tr :
  run h (AddToBlockChain bc from to amount) w = (res, w', tr) ->
  AddOutcome h bc from to amount w res w' tr.
Proof.
  unfold AddToBlockChain, call, mbind, prog_bind. simpl.
  destruct (h _ Repo_GetBlock w) as [[lastBlock [e |]] w1] eqn:E1; simpl.
  { intros [= <- <- <-]. econstructor; eassumption. }
  destruct (h _ (TxnSvc_CreateTransaction from to amount) w1)
    as [[newTxn [e |]] w2] eqn:E2; simpl.
  { intros [= <- <- <-]. econstructor; eassumption. }
  destruct (h _ (BlockSvc_CreateBlock [newTxn]
                   (Hash (ToBlockStructure (blockAssembler bc) lastBlock))) w2)
    as [newBlock w3] eqn:E3; simpl.
  destruct (h _ (Repo_CreateBlock (Hash newBlock)
                   (ToBlockBytes (blockAssembler bc) newBlock)) w3)
    as [[out [e |]] w4] eqn:E4; simpl.
  { intros [= <- <- <-]. econstructor; eassumption. }
  destruct (h _ (Repo_CreateTransaction (ID newTxn)
                   (ToTxnBytes (txnAssembler bc) newTxn)) w4)
    as [[e |] w5] eqn:E5; simpl.
  { intros [= <- <- <-]. econstructor; eassumption. }
  intros [= <- <- <-]. econstructor; eassumption.
Qed.

Lemma AddOutcome_run bc {W} (h : handler W) (w : W) from to amount res w' tr :
  AddOutcome h bc from to amount w res w' tr ->
  run h (AddToBlockChain bc from to amount) w = (res, w', tr).
Proof.
  unfold AddToBlockChain, call, mbind, prog_bind.
  intros H; destruct H;
    repeat match goal with x := _ |- _ => subst x end; simpl;
    repeat match goal with
           | E : h _ _ _ = _ |- _ => rewrite E; clear E; simpl
           end; reflexivity.
Qed.

(** C3.  When the repository has no last block to give, [AddToBlockChain]
    returns the zero block with the not-initialised error wrapping the
    repository's, and the read is the only call it makes: nothing is written,
    the world is as the read left it. *)
Theorem AddToBlockChain_uninitialized bc {W} (h : handler W) (w : W)
    from to amount lastBlock e w1 :
  h _ Repo_GetBlock w = ((lastBlock, Some e), w1) ->
  exists tr,
    run h (AddToBlockChain bc from to amount) w =
      ((Some zeroBlock, Some (errNoLastBlock e)), w1, tr) /\
    tr = [EvGetBlock (lastBlock, Some e)] /\
    Forall (fun ev => isWrite ev = false) tr.
Proof.
  intros E. eexists. split; [| split; [reflexivity |]].
  - apply AddOutcome_run. constructor. exact E.
  - repeat constructor.
Qed.

(** C2.  A successful [AddToBlockChain] reads the last block, makes the
    transaction from [(from, to, amount)], makes a block from that one
    transaction and the decoded last block's hash, and writes the block and
    then the transaction; the block returned is the one written, its previous
    hash is the decoded last block's hash and it holds exactly that
    transaction. *)
Theorem AddToBlockChain_links bc {W} (h : handler W) (w : W) from to amount ptr w' tr :
  blockFactoryContract h ->
  run h (AddToBlockChain bc from to amount) w = ((ptr, None), w', tr) ->
  exists lastBlock newTxn newBlock out,
    ptr = Some newBlock /\
    tr = [EvGetBlock (lastBlock, None);
          EvNewTransaction from to amount (newTxn, None);
          EvNewBlock [newTxn] (Hash (ToBlockStructure (blockAssembler bc) lastBlock)) newBlock;
          EvCreateBlock (Hash newBlock) (ToBlockBytes (blockAssembler bc) newBlock) (out, None);
          EvCreateTransaction (ID newTxn) (ToTxnBytes (txnAssembler bc) newTxn) None] /\
    PrevHash newBlock = Hash (ToBlockStructure (blockAssembler bc) lastBlock) /\
    Transactions newBlock = [newTxn].
Proof.
  intros Hfac Hrun. apply AddToBlockChain_outcome in Hrun.
  inversion Hrun; subst.
  exists lastBlock, newTxn, newBlock, out.
  split; [reflexivity |]. split; [reflexivity |].
  match goal with
  | E : h _ (BlockSvc_CreateBlock ?txns ?p) ?w2 = _ |- _ =>
      pose proof (Hfac txns p w2) as Hc; rewrite E in Hc; simpl in Hc
  end.
  destruct Hc as [Ht Hp]. split; assumption.
Qed.

(** C7.  The writes [AddToBlockChain] attempts are, in order, none, the
    block write alone, or the block write and then the transaction write, the
    latter only after the block write succeeded.  When the block write fails
    the call returns that error and no transaction write is attempted.  When
    the transaction write fails the call returns that error; the block write
    succeeded just before it and the failed write is the last call, so the
    final world is the one the successful block write produced, passed
    through the failed transaction write only. *)
Theorem AddToBlockChain_write_order bc {W} (h : handler W) (w : W)
    from to amount res w' tr :
  run h (AddToBlockChain bc from to amount) w = (res, w', tr) ->
  (List.filter isWrite tr = [] \/
   (exists bw, List.filter isWrite tr = [bw] /\ isBlockWrite bw = true) \/
   (exists bw tw, List.filter isWrite tr = [bw; tw] /\
      isBlockWrite bw = true /\ failure bw = None /\ isTxnWrite tw = true)) /\
  (forall bw e, In bw tr -> isBlockWrite bw = true -> failure bw = Some e ->
     res = (Some zeroBlock, Some e) /\ List.filter isWrite tr = [bw]) /\
  (forall tw e, In tw tr -> isTxnWrite tw = true -> failure tw = Some e ->
     res = (Some zeroBlock, Some e) /\
     last tr = Some tw /\
     exists hash data out w3 w4 id txnData,
       List.filter isWrite tr =
         [EvCreateBlock hash data (out, None); EvCreateTransaction id txnData (Some e)] /\
       h _ (Repo_CreateBlock hash data) w3 = ((out, None), w4) /\
       h _ (Repo_CreateTransaction id txnData) w4 = (Some e, w')).
Proof.
  intros Hrun. apply AddToBlockChain_outcome in Hrun.
  inversion Hrun; subst; clear Hrun;
    repeat match goal with x := _ |- _ => subst x end.
  - split; [left; reflexivity |].
    split; intros ev e' Hin Hw Hf; simpl in Hin; intuition subst; discriminate.
  - split; [left; reflexivity |].
    split; intros ev e' Hin Hw Hf; simpl in Hin; intuition subst; discriminate.
  - split; [right; left; eexists; split; reflexivity |].
    split; intros ev e' Hin Hw Hf; simpl in Hin; intuition subst; try discriminate.
    + simpl in Hf. congruence.
    + reflexivity.
  - split; [right; right; eexists _, _; repeat split; reflexivity |].
    split; intros ev e' Hin Hw Hf; simpl in Hin; intuition subst; try discriminate.
    + simpl in Hf. congruence.
    + reflexivity.
    + simpl in Hf. injection Hf as <-.
      eexists _, _, _, _, _, _, _. split; [reflexivity |]. split; eassumption.
  - split; [right; right; eexists _, _; repeat split; reflexivity |].
    split; intros ev e' Hin Hw Hf; simpl in Hin; intuition subst; discriminate.
Qed.

(** C10.  [AddToBlockChain] never returns a nil block.  Whenever it returns
    an error the block is the zero value (no hash, no previous hash, no
    transactions) and the last call it made reported an error; and it returns
    an error whenever one of its calls reported one: the repository's error wrapped when the last block is missing, the
    error itself when the transaction is rejected or a write fails. *)
Theorem AddToBlockChain_error_block bc {W} (h : handler W) (w : W)
    from to amount ptr err w' tr :
  run h (AddToBlockChain bc from to amount) w = ((ptr, err), w', tr) ->
  ptr <> None /\
  (forall e, err = Some e ->
     ptr = Some zeroBlock /\ exists ev e0, last tr = Some ev /\ failure ev = Some e0) /\
  (forall ev e, In ev tr -> failure ev = Some e ->
     ptr = Some zeroBlock /\
     err = Some (match ev with EvGetBlock _ => errNoLastBlock e | _ => e end)) /\
  Hash zeroBlock = [] /\ PrevHash zeroBlock = [] /\ Transactions zeroBlock = [].
Proof.
  intros Hrun. apply AddToBlockChain_outcome in Hrun.
  split; [inversion Hrun; discriminate |].
  split; [| split; [| repeat split]].
  - intros e0 ->. inversion Hrun; subst; (split; [reflexivity |]);
      eexists _, _; split; reflexivity.
  - intros ev e0 Hin Hf.
    inversion Hrun; subst; simpl in Hin; intuition subst; simpl in Hf;
      try discriminate; injection Hf as <-; split; reflexivity.
Qed.

(** ** The creation *)

Lemma CreateBlockchain_missing bc {W} (h : handler W) (w : W) to
    genesis e w1 tr1 coinbaseTxn w2 newBlock w3 out perr w4 :
  run h (GetGenesisBlock bc) w = ((genesis, Some e), w1, tr1) ->
  h _ (TxnSvc_CreateCoinbaseTxn to coinbaseData) w1 = (coinbaseTxn, w2) ->
  h _ (BlockSvc_CreateBlock [coinbaseTxn] []) w2 = (newBlock, w3) ->
  h _ (Repo_CreateBlock (Hash newBlock) (ToBlockBytes (blockAssembler bc) newBlock)) w3
    = ((out, perr), w4) ->
  run h (CreateBlockchain bc to) w =
  (match perr with
   | Some e' => (None, false, Some e')
   | None => (Some (ToBlockStructure (blockAssembler bc) out), false, None)
   end, w4,
   tr1 ++ [EvNewCoinbaseTxn to coinbaseData coinbaseTxn;
           EvNewBlock [coinbaseTxn] [] newBlock;
           EvCreateBlock (Hash newBlock) (ToBlockBytes (blockAssembler bc) newBlock)
             (out, perr)]).
Proof.
  intros E0 E1 E2 E3. unfold CreateBlockchain, call, mbind, prog_bind.
  rewrite run_bind, E0. simpl. rewrite E1, E2. simpl. rewrite E3.
  destruct perr; reflexivity.
Qed.

(** C6.  When the genesis lookup fails, [CreateBlockchain] asks for a
    coinbase transaction paying [to] with the fixed memo, for a block made of
    that one transaction with an empty previous hash, and writes the block
    under its hash, once.  If the write succeeds the call returns that block
    with the flag false; if it fails the call returns the error and a nil
    block, and makes no other write. *)
Theorem CreateBlockchain_creates_genesis bc {W} (h : handler W) (w : W) to
    genesis e w1 tr1 :
  blockFactoryContract h -> coinbaseContract h -> storeEchoContract h ->
  codecContract bc ->
  run h (GetGenesisBlock bc) w = ((genesis, Some e), w1, tr1) ->
  exists coinbaseTxn newBlock out perr res w4,
    run h (CreateBlockchain bc to) w =
      (res, w4,
       tr1 ++ [EvNewCoinbaseTxn to coinbaseData coinbaseTxn;
               EvNewBlock [coinbaseTxn] [] newBlock;
               EvCreateBlock (Hash newBlock) (ToBlockBytes (blockAssembler bc) newBlock)
                 (out, perr)]) /\
    TxTo coinbaseTxn = to /\ TxData coinbaseTxn = coinbaseData /\
    Transactions newBlock = [coinbaseTxn] /\ PrevHash newBlock = [] /\
    res = match perr with
          | None => (Some newBlock, false, None)
          | Some e' => (None, false, Some e')
          end.
Proof.
  intros Hblock Hcoin Hecho Hcodec E0.
  destruct (h _ (TxnSvc_CreateCoinbaseTxn to coinbaseData) w1)
    as [coinbaseTxn w2] eqn:E1.
  destruct (h _ (BlockSvc_CreateBlock [coinbaseTxn] []) w2) as [newBlock w3] eqn:E2.
  destruct (h _ (Repo_CreateBlock (Hash newBlock)
                   (ToBlockBytes (blockAssembler bc) newBlock)) w3)
    as [[out perr] w4] eqn:E3.
  exists coinbaseTxn, newBlock, out, perr. eexists _, w4.
  split; [apply (CreateBlockchain_missing bc h w to _ _ _ _ _ _ _ _ _ _ _ E0 E1 E2 E3) |].
  pose proof (Hcoin to coinbaseData w1) as Hc. rewrite E1 in Hc. simpl in Hc.
  pose proof (Hblock [coinbaseTxn] [] w2) as Hb. rewrite E2 in Hb. simpl in Hb.
  destruct Hc as [Hto Hdata], Hb as [Htx Hprev].
  repeat (split; [assumption |]).
  destruct perr as [e' |]; [reflexivity |].
  rewrite (Hecho _ _ _ _ _ E3), Hcodec. reflexivity.
Qed.

(** ** The enumeration *)

Lemma decodeAll_map bc blocks allBlocks :
  decodeAll bc blocks allBlocks =
  allBlocks ++ map (ToBlockStructure (blockAssembler bc)) blocks.
Proof.
  revert allBlocks. induction blocks as [| block rest IH]; intros allBlocks; simpl.
  - rewrite app_nil_r. reflexivity.
  - rewrite IH, <- app_assoc. reflexivity.
Qed.

Lemma newerFirst_strictWeakOrder : strictWeakOrder newerFirst.
Proof.
  unfold strictWeakOrder, newerFirst. split.
  - intros a b H. apply Z.gtb_lt in H. rewrite Z.gtb_ltb. apply Z.ltb_ge. lia.
  - intros a b c H1 H2. rewrite Z.gtb_ltb in *.
    apply Z.ltb_ge in H1, H2. apply Z.ltb_ge. lia.
Qed.

Lemma GetBlockchain_run sort_Slice bc {W} (h : handler W) (w : W) blocks err w1 :
  h _ Repo_GetBlockchain w = ((blocks, err), w1) ->
  run h (GetBlockchain sort_Slice bc) w =
  (match err with
   | Some e => ([], Some e)
   | None =>
       (sort_Slice Block newerFirst (map (ToBlockStructure (blockAssembler bc)) blocks),
        None)
   end, w1, [EvGetBlockchain (blocks, err)]).
Proof.
  intros E. unfold GetBlockchain, call, mbind, prog_bind. simpl. rewrite E.
  destruct err; simpl; [reflexivity |]. rewrite decodeAll_map. reflexivity.
Qed.

Lemma StronglySorted_weaken {A} (R1 R2 : A -> A -> Prop) (l : list A) :
  (forall a b, R1 a b -> R2 a b) -> StronglySorted R1 l -> StronglySorted R2 l.
Proof.
  intros HR. induction 1 as [| x rest _ IH Hx]; constructor; [exact IH |].
  eapply List.Forall_impl; [| exact Hx]. intros b. apply HR.
Qed.

(** In a list sorted newest first, a block strictly older than all the
    others comes last. *)
Lemma oldest_is_last (l : list Block) :
  StronglySorted (fun a b => Timestamp a >= Timestamp b) l ->
  forall genesis later,
    Permutation l (genesis :: later) ->
    (forall b, In b later -> Timestamp genesis < Timestamp b) ->
    last l = Some genesis.
Proof.
  induction 1 as [| x rest Hsorted IH Hx]; intros genesis later HP Hold.
  - apply Permutation_nil in HP. discriminate.
  - destruct rest as [| y t].
    + apply Permutation_length_1_inv in HP. injection HP as <- _. reflexivity.
    + change (last (x :: y :: t)) with (last (y :: t)).
      assert (Hin : In x (genesis :: later)).
      { eapply Permutation_in; [exact HP | left; reflexivity]. }
      destruct Hin as [<- | Hin].
      * apply Permutation_cons_inv in HP.
        assert (Hy : In y later) by (eapply Permutation_in; [exact HP | left; reflexivity]).
        apply Hold in Hy. rewrite List.Forall_forall in Hx.
        specialize (Hx y (or_introl eq_refl)). lia.
      * destruct (in_split _ _ Hin) as (l1 & l2 & ->).
        apply (IH genesis (l1 ++ l2)).
        -- apply Permutation_cons_inv with (a := x).
           rewrite HP. rewrite perm_swap. apply perm_skip.
           symmetry. apply Permutation_middle.
        -- intros b Hb. apply Hold. apply in_app_or in Hb. apply in_or_app.
           destruct Hb; [left | right; right]; assumption.
Qed.

(** C4.  When the enumeration succeeds, [GetBlockchain] returns, after that
    one call, the decoded persisted blocks (each of them, as often as it was
    enumerated) ordered by timestamp, newest first; and when the persisted
    blocks are a chain with strictly increasing timestamps, the chain's first
    block, the genesis block, is the last one returned. *)
Theorem GetBlockchain_newest_first sort_Slice bc {W} (h : handler W) (w : W) blocks w1 :
  sortContract sort_Slice ->
  h _ Repo_GetBlockchain w = ((blocks, None), w1) ->
  exists allBlocks,
    run h (GetBlockchain sort_Slice bc) w =
      ((allBlocks, None), w1, [EvGetBlockchain (blocks, None)]) /\
    Permutation allBlocks (map (ToBlockStructure (blockAssembler bc)) blocks) /\
    StronglySorted (fun a b => Timestamp a >= Timestamp b) allBlocks /\
    (forall genesis later,
       Permutation (map (ToBlockStructure (blockAssembler bc)) blocks) (genesis :: later) ->
       StronglySorted (fun a b => Timestamp a < Timestamp b) (genesis :: later) ->
       last allBlocks = Some genesis).
Proof.
  intros Hsort E.
  destruct (Hsort Block newerFirst (map (ToBlockStructure (blockAssembler bc)) blocks)
              newerFirst_strictWeakOrder) as [HP HS].
  eexists. split; [apply (GetBlockchain_run sort_Slice bc h w blocks None w1 E) |].
  assert (HS' : StronglySorted (fun a b => Timestamp a >= Timestamp b)
                  (sort_Slice Block newerFirst
                     (map (ToBlockStructure (blockAssembler bc)) blocks))).
  { eapply StronglySorted_weaken; [| exact HS]. cbv beta.
    intros a b H. unfold newerFirst in H. rewrite Z.gtb_ltb in H.
    apply Z.ltb_ge in H. lia. }
  split; [exact HP |]. split; [exact HS' |].
  intros genesis later Hchain Hinc.
  apply (oldest_is_last _ HS' genesis later).
  - rewrite HP. exact Hchain.
  - apply StronglySorted_inv in Hinc. destruct Hinc as [_ Hall].
    rewrite List.Forall_forall in Hall. exact Hall.
Qed.

(** ** The in-memory collaborators keep their contracts *)

Module MemFacts.
Import Mem.

Lemma fields_enc_field cur f rest :
  fields cur (enc_field f ++ rest) = (cur ++ f) :: fields [] rest.
Proof.
  revert cur. unfold enc_field.
  induction f as [| b f IH]; intros cur; simpl.
  - rewrite app_nil_r. reflexivity.
  - rewrite IH, <- app_assoc. reflexivity.
Qed.

Lemma fields_flat_map fs : fields [] (flat_map enc_field fs) = fs.
Proof.
  induction fs as [| f fs IH]; simpl; [reflexivity |].
  rewrite fields_enc_field, IH. reflexivity.
Qed.

Lemma bits_pos_bits p : bits_pos (pos_bits p) = p.
Proof. induction p as [q IH | q IH |]; simpl; rewrite ?IH; reflexivity. Qed.

Lemma Z_of_to_bytes z : Z_of_bytes (Z_to_bytes z) = z.
Proof. destruct z; simpl; rewrite ?bits_pos_bits; reflexivity. Qed.

Lemma Z_to_bytes_nonempty z : Z_to_bytes z <> [].
Proof. destruct z; discriminate. Qed.

Lemma txns_of_txn_fields ts : txns_of_fields (flat_map txn_fields ts) = ts.
Proof.
  induction ts as [| t ts IH]; simpl; [reflexivity |].
  rewrite IH, !string_of_list_byte_of_string, Z_of_to_bytes.
  destruct t; reflexivity.
Qed.

Lemma block_of_block_fields b : block_of_fields (block_fields b) = b.
Proof.
  unfold block_fields, block_of_fields.
  rewrite Z_of_to_bytes, txns_of_txn_fields. destruct b; reflexivity.
Qed.

Lemma mem_codec : codecContract service.
Proof.
  intros b. unfold service, BlockAssembler.
  cbn [blockAssembler ToBlockBytes ToBlockStructure].
  rewrite fields_flat_map. apply block_of_block_fields.
Qed.

Lemma mem_blockFactory : blockFactoryContract handle.
Proof. intros txns prevHash w. simpl. split; reflexivity. Qed.

Lemma mem_coinbase : coinbaseContract handle.
Proof. intros to data w. simpl. split; reflexivity. Qed.

Lemma mem_storeEcho : storeEchoContract handle.
Proof.
  intros hash data w out w'. simpl. unfold repoCreateBlock.
  destruct (nextFault (writeFaults w)) as [[|] rest]; [discriminate |].
  intros [= <- _]. reflexivity.
Qed.

Lemma digest_nonempty ts prevHash txns : digest ts prevHash txns <> [].
Proof.
  unfold digest. destruct (Z_to_bytes ts) eqn:E; [| discriminate].
  exfalso. exact (Z_to_bytes_nonempty ts E).
Qed.

(** The insertion sort keeps [sort.Slice]'s promise. *)

Lemma sink_Permutation {A} (less : A -> A -> bool) x l :
  Permutation (sink less x l) (x :: l).
Proof.
  induction l as [| y l IH]; simpl; [reflexivity |].
  destruct (less x y); [| reflexivity].
  rewrite IH. apply perm_swap.
Qed.

Lemma sink_sorted {A} (less : A -> A -> bool) x l :
  strictWeakOrder less ->
  StronglySorted (fun a b => less a b = false) l ->
  StronglySorted (fun a b => less a b = false) (sink less x l).
Proof.
  intros [Hasym Hneg]. induction 1 as [| y l Hl IH Hy]; simpl.
  - repeat constructor.
  - destruct (less x y) eqn:E.
    + constructor; [exact IH |].
      eapply Permutation_Forall; [symmetry; apply sink_Permutation |].
      constructor; [apply Hasym, E | exact Hy].
    + constructor; [constructor; assumption |].
      constructor; [exact E |].
      eapply List.Forall_impl; [| exact Hy]. intros z Hz. eapply Hneg; eassumption.
Qed.

Lemma StronglySorted_rev {A} (R : A -> A -> Prop) l :
  StronglySorted (fun a b => R b a) l -> StronglySorted R (rev l).
Proof.
  induction 1 as [| x l Hl IH Hx]; simpl; [constructor |].
  clear Hl. revert IH. generalize (rev_involutive l).
  assert (Hx' : List.Forall (fun b => R b x) (rev l)).
  { apply List.Forall_forall. intros b Hb. apply in_rev in Hb.
    rewrite List.Forall_forall in Hx. apply Hx, Hb. }
  clear Hx. intros _. induction (rev l) as [| y t IHt]; simpl; intros Hs.
  - repeat constructor.
  - apply StronglySorted_inv in Hs. destruct Hs as [Ht Hy].
    apply List.Forall_cons_iff in Hx'. destruct Hx' as [Hyx Htx].
    constructor; [apply IHt; assumption |].
    apply List.Forall_app. split; [exact Hy | repeat constructor; exact Hyx].
Qed.

Lemma insertionSort_contract : sortContract insertionSort.
Proof.
  intros A less l Hswo. unfold insertionSort.
  assert (H : forall acc,
             StronglySorted (fun a b => less a b = false) acc ->
             Permutation (fold_left (fun acc x => sink less x acc) l acc) (l ++ acc) /\
             StronglySorted (fun a b => less a b = false)
               (fold_left (fun acc x => sink less x acc) l acc)).
  { induction l as [| x l IH]; intros acc Hacc; simpl.
    - split; [reflexivity | exact Hacc].
    - destruct (IH (sink less x acc) (sink_sorted less x acc Hswo Hacc)) as [HP HS].
      split; [| exact HS].
      rewrite HP, sink_Permutation. symmetry. apply Permutation_middle. }
  destruct (H [] (SSorted_nil _)) as [HP HS]. split.
  - rewrite <- Permutation_rev, HP, app_nil_r. reflexivity.
  - apply StronglySorted_rev. exact HS.
Qed.

Lemma CreateBlockchain_on_genesis g w to :
  holdsGenesis g (store w) -> enumFaults w = [] ->
  run handle (CreateBlockchain service to) w =
  ((Some g, true, None), w,
   [EvGetBlockchain ([ToBlockBytes BlockAssembler g], None)]).
Proof.
  intros (Hb & Hp & Hh) Hf.
  assert (E : handle _ Repo_GetBlockchain w =
              (([ToBlockBytes BlockAssembler g], None), w)).
  { destruct w as [s ef wf c n tk]. simpl in *. subst ef.
    unfold repoGetBlockchain, persisted. simpl. rewrite Hb.
    rewrite map_to_list_singleton. reflexivity. }
  assert (G : run handle (GetGenesisBlock service) w =
              ((g, None), w, [EvGetBlockchain ([ToBlockBytes BlockAssembler g], None)])).
  { rewrite (GetGenesisBlock_run service handle w _ _ _ E). cbv zeta.
    unfold firstGenesis. cbn [map List.find].
    pose proof (mem_codec g) as Hc. change (blockAssembler service) with BlockAssembler in *.
    rewrite Hc. rewrite (proj2 (isGenesis_true g) Hp). cbn [default from_option id].
    destruct (len (Hash g) =? 0) eqn:Hl; [apply len_0 in Hl; contradiction |].
    reflexivity. }
  rewrite (CreateBlockchain_found service handle w to g w _ G).
  rewrite (proj2 (isGenesis_true g) Hp). reflexivity.
Qed.

Lemma CreateBlockchain_on_empty w to :
  blocks (store w) = ∅ -> enumFaults w = [] ->
  exists res w' tr,
    run handle (CreateBlockchain service to) w = (res, w', tr) /\
    enumFaults w' = [] /\
    ((exists e, res = (None, false, Some e) /\ blocks (store w') = ∅) \/
     (exists g, res = (Some g, false, None) /\ holdsGenesis g (store w'))).
Proof.
  intros Hb Hf.
  assert (E : handle _ Repo_GetBlockchain w = (([], None), w)).
  { destruct w as [s ef wf c n tk]. simpl in *. subst ef.
    unfold repoGetBlockchain, persisted. simpl. rewrite Hb.
    rewrite map_to_list_empty. reflexivity. }
  assert (G : run handle (GetGenesisBlock service) w =
              ((zeroBlock, Some errNoGenesis), w, [EvGetBlockchain ([], None)])).
  { rewrite (GetGenesisBlock_run service handle w _ _ _ E). reflexivity. }
  destruct (handle _ (TxnSvc_CreateCoinbaseTxn to coinbaseData) w) as [t w2] eqn:E1.
  destruct (handle _ (BlockSvc_CreateBlock [t] []) w2) as [b w3] eqn:E2.
  destruct (handle _ (Repo_CreateBlock (Hash b) (ToBlockBytes (blockAssembler service) b)) w3)
    as [[out perr] w4] eqn:E3.
  rewrite (CreateBlockchain_missing service handle w to _ _ _ _ _ _ _ _ _ _ _ G E1 E2 E3).
  assert (Hw3 : store w3 = store w /\ enumFaults w3 = enumFaults w).
  { simpl in E1, E2. unfold createCoinbaseTxn, freshId in E1. unfold createBlock in E2.
    injection E1 as _ <-. injection E2 as _ <-. split; reflexivity. }
  assert (Hb3 : PrevHash b = [] /\ Hash b <> []).
  { simpl in E2. unfold createBlock in E2. injection E2 as <- _.
    split; [reflexivity | apply digest_nonempty]. }
  destruct Hw3 as [Hs3 Hf3].
  destruct perr as [e |].
  - eexists _, _, _. split; [reflexivity |].
    simpl in E3. unfold repoCreateBlock in E3.
    destruct (nextFault (writeFaults w3)) as [[|] rest]; [| discriminate].
    injection E3 as _ _ <-. simpl. rewrite Hf3, Hs3.
    split; [exact Hf |]. left. exists e. split; [reflexivity | exact Hb].
  - rewrite (mem_storeEcho _ _ _ _ _ E3), (mem_codec b).
    eexists _, _, _. split; [reflexivity |].
    simpl in E3. unfold repoCreateBlock in E3.
    destruct (nextFault (writeFaults w3)) as [[|] rest]; [discriminate |].
    injection E3 as _ <-. simpl. rewrite Hf3, Hs3, Hb.
    split; [exact Hf |]. right. exists b. split; [reflexivity |].
    split; [reflexivity | exact Hb3].
Qed.

Lemma createAll_on_genesis g tos w :
  holdsGenesis g (store w) -> enumFaults w = [] ->
  exists rs,
    createAll tos w = (rs, w) /\
    Forall (fun r => fst r = (Some g, true, None) /\ List.filter isWrite (snd r) = []) rs.
Proof.
  intros Hg Hf. induction tos as [| to rest IH]; cbn [createAll].
  - exists []. split; [reflexivity | constructor].
  - rewrite (CreateBlockchain_on_genesis g w to Hg Hf).
    destruct IH as (rs & -> & Hall). eexists. split; [reflexivity |].
    constructor; [split; reflexivity | exact Hall].
Qed.

(** X12.  With an enumeration that does not fail, genesis is unique: after any
    sequence of [CreateBlockchain] calls on an empty store, whatever writes
    fail, at most one persisted block has an empty previous hash, and every
    call after a successful one returns that same block, flagged as
    existing, without writing. *)
Theorem genesis_unique_when_lookups_succeed tos w :
  blocks (store w) = ∅ -> enumFaults w = [] ->
  exists rs w',
    createAll tos w = (rs, w') /\
    (length (List.filter isGenesis
               (map (ToBlockStructure BlockAssembler) (persisted (store w')))) <= 1)%nat /\
    (forall pre g flag tr post,
       rs = pre ++ ((Some g, flag, None), tr) :: post ->
       Forall (fun r => fst r = (Some g, true, None) /\
                        List.filter isWrite (snd r) = []) post).
Proof.
  revert w. induction tos as [| to rest IH]; intros w Hb Hf; cbn [createAll].
  - exists [], w. split; [reflexivity |]. split.
    + unfold persisted. rewrite Hb, map_to_list_empty. simpl. lia.
    + intros [| ? ?] ? ? ? ? H; discriminate.
  - destruct (CreateBlockchain_on_empty w to Hb Hf)
      as (res & w1 & tr & -> & Hf1 & [(e & -> & Hb1) | (g & -> & Hg)]).
    + destruct (IH w1 Hb1 Hf1) as (rs & w' & -> & Hlen & Hafter).
      eexists _, _. split; [reflexivity |]. split; [exact Hlen |].
      intros [| r pre] g flag tr' post H; simpl in H; [discriminate |].
      injection H as _ H. eapply Hafter, H.
    + destruct (createAll_on_genesis g rest w1 Hg Hf1) as (rs & -> & Hall).
      eexists _, _. split; [reflexivity |]. split.
      * destruct Hg as (Hbl & Hp & _). unfold persisted.
        rewrite Hbl, map_to_list_singleton. simpl. 
        destruct (isGenesis _); simpl; lia.
      * intros [| r pre] g' flag tr' post H; simpl in H.
        -- injection H as <- _ _ <-. exact Hall.
        -- injection H as _ H. subst rs.
           apply List.Forall_app in Hall. destruct Hall as [_ Hall].
           apply List.Forall_cons_iff in Hall. destruct Hall as [[Hr _] Hall].
           simpl in Hr. injection Hr as <- _. exact Hall.
Qed.

(** Without a last-block pointer the append changes nothing at all. *)
Lemma mem_append_without_pointer w from to amount :
  lastBlock (store w) = None ->
  run handle (AddToBlockChain service from to amount) w =
  ((Some zeroBlock, Some (errNoLastBlock errNotInitialized)), w,
   [EvGetBlock ([], Some errNotInitialized)]).
Proof.
  intros Hnone. apply AddOutcome_run. constructor.
  simpl. unfold repoGetBlock. rewrite Hnone. reflexivity.
Qed.

(** A failed block write leaves the store as it was. *)
Lemma mem_store_kept_when_block_write_fails w from to amount res w' tr bw e :
  run handle (AddToBlockChain service from to amount) w = (res, w', tr) ->
  In bw tr -> isBlockWrite bw = true -> failure bw = Some e ->
  store w' = store w.
Proof.
  intros Hrun Hin Hw Hf. apply AddToBlockChain_outcome in Hrun.
  inversion Hrun; subst; clear Hrun;
    repeat match goal with x := _ |- _ => subst x end;
    simpl in Hin; intuition subst; try discriminate;
    simpl in *;
    repeat match goal with
           | E : repoGetBlock _ = _ |- _ =>
               unfold repoGetBlock in E;
               destruct (lastBlock (store w)); [| discriminate];
               destruct (blocks (store w) !! _); [| discriminate];
               injection E as _ <-
           | E : createTransaction _ _ _ _ = _ |- _ =>
               unfold createTransaction, freshId in E;
               destruct (amount <? 0); [discriminate |];
               injection E as _ <-
           | E : createBlock _ _ _ = _ |- _ =>
               unfold createBlock in E; injection E as _ <-
           | E : repoCreateBlock _ _ _ = _ |- _ =>
               unfold repoCreateBlock in E;
               destruct (nextFault _) as [[|] ?]; [| discriminate];
               injection E as _ _ <-
           end; reflexivity.
Qed.

(** X14.  After a failed transaction write the new block is in the store, under
    its hash, and is the last block; no transaction was stored. *)
Lemma mem_block_kept_when_txn_write_fails w from to amount res w' tr tw e :
  run handle (AddToBlockChain service from to amount) w = (res, w', tr) ->
  In tw tr -> isTxnWrite tw = true -> failure tw = Some e ->
  exists txns0 prevHash newBlock,
    In (EvNewBlock txns0 prevHash newBlock) tr /\
    blocks (store w') !! Hash newBlock = Some (ToBlockBytes BlockAssembler newBlock) /\
    lastBlock (store w') = Some (Hash newBlock) /\
    txns (store w') = txns (store w).
Proof.
  intros Hrun Hin Hw Hf. apply AddToBlockChain_outcome in Hrun.
  inversion Hrun; subst; clear Hrun;
    repeat match goal with x := _ |- _ => subst x end;
    simpl in Hin; intuition subst; try discriminate.
  eexists _, _, newBlock. split; [right; right; left; reflexivity |].
  simpl in *.
  repeat match goal with
         | E : repoGetBlock _ = _ |- _ =>
             unfold repoGetBlock in E;
             destruct (lastBlock (store w)); [| discriminate];
             destruct (blocks (store w) !! _); [| discriminate];
             injection E as _ <-
         | E : createTransaction _ _ _ _ = _ |- _ =>
             unfold createTransaction, freshId in E;
             destruct (amount <? 0); [discriminate |];
             injection E as _ <-
         | E : createBlock _ _ _ = _ |- _ =>
             unfold createBlock in E; injection E as <- <-
         | E : repoCreateBlock _ _ _ = _ |- _ =>
             unfold repoCreateBlock in E;
             destruct (nextFault _) as [[|] ?]; [discriminate |];
             injection E as _ <-
         | E : repoCreateTransaction _ _ _ = _ |- _ =>
             unfold repoCreateTransaction in E; simpl in E;
             destruct (nextFault _) as [[|] ?]; [| discriminate];
             injection E as _ <-
         end.
  simpl. split; [apply lookup_insert_eq |]. split; reflexivity.
Qed.

End MemFacts.


(** ** The properties at concrete worlds *)



Lemma CreateBlockchain_existing_flag_witness :
  exists genesis tr1,
    run Mem.handle (GetGenesisBlock Mem.service) Examples.aliceWorld =
      ((genesis, None), Examples.aliceWorld, tr1) /\
    run Mem.handle (CreateBlockchain Mem.service "carol") Examples.aliceWorld =
      ((Some genesis, isGenesis genesis, None), Examples.aliceWorld, tr1) /\
    isGenesis genesis = true.
Proof.
  eexists _, _. split; [reflexivity |].
  apply (CreateBlockchain_existing_flag Mem.service Mem.handle Examples.aliceWorld "carol").
  reflexivity.
Defined.

Lemma GetGenesisBlock_any_order_witness :
  let blocks := Mem.persisted (Mem.store Examples.bobWorld) in
  Mem.handle _ Repo_GetBlockchain Examples.bobWorld = ((blocks, None), Examples.bobWorld) /\
  Examples.reversed Mem.handle _ Repo_GetBlockchain Examples.bobWorld
    = ((rev blocks, None), Examples.bobWorld) /\
  rev blocks <> blocks /\
  fst (fst (run Mem.handle (GetGenesisBlock Mem.service) Examples.bobWorld)) =
  fst (fst (run (Examples.reversed Mem.handle) (GetGenesisBlock Mem.service)
              Examples.bobWorld)).
Proof.
  intros blocks. split; [reflexivity |]. split; [reflexivity |].
  split; [discriminate |].
  apply (GetGenesisBlock_any_order Mem.service Mem.handle (Examples.reversed Mem.handle)
           Examples.bobWorld Examples.bobWorld blocks (rev blocks)
           Examples.bobWorld Examples.bobWorld).
  - reflexivity.
  - reflexivity.
  - apply Permutation_rev.
  - vm_compute. lia.
Defined.

Lemma AddToBlockChain_uninitialized_witness :
  Mem.handle _ Repo_GetBlock Mem.world0 = (([], Some Mem.errNotInitialized), Mem.world0) /\
  exists tr,
    run Mem.handle (AddToBlockChain Mem.service "alice" "bob" 10) Mem.world0 =
      ((Some zeroBlock, Some (errNoLastBlock Mem.errNotInitialized)), Mem.world0, tr) /\
    tr = [EvGetBlock ([], Some Mem.errNotInitialized)] /\
    Forall (fun ev => isWrite ev = false) tr.
Proof.
  split; [reflexivity |].
  apply (AddToBlockChain_uninitialized Mem.service Mem.handle Mem.world0 "alice" "bob" 10).
  reflexivity.
Defined.

Lemma AddToBlockChain_links_witness :
  blockFactoryContract Mem.handle /\
  exists lastBlock newTxn newBlock,
    fst (fst (fst (run Mem.handle (AddToBlockChain Mem.service "alice" "bob" 10)
                     Examples.aliceWorld))) = Some newBlock /\
    PrevHash newBlock = Hash (ToBlockStructure (blockAssembler Mem.service) lastBlock) /\
    Transactions newBlock = [newTxn] /\
    (TxFrom newTxn, TxTo newTxn, TxAmount newTxn) = ("alice", "bob", 10).
Proof.
  split; [exact MemFacts.mem_blockFactory |].
  destruct (AddToBlockChain_links Mem.service Mem.handle Examples.aliceWorld
              "alice" "bob" 10 _ _ _ MemFacts.mem_blockFactory eq_refl)
    as (lastBlock & newTxn & newBlock & out & Hptr & Htr & Hprev & Htx).
  exists lastBlock, newTxn, newBlock.
  split; [exact Hptr |]. split; [exact Hprev |]. split; [exact Htx |].
  injection Hptr as <-. injection Htx as <-. reflexivity.
Defined.

Lemma AddToBlockChain_write_order_witness :
  let r := run Mem.handle (AddToBlockChain Mem.service "alice" "bob" 10)
             Examples.txnFaultWorld in
  fst (fst r) = (Some zeroBlock, Some Mem.errStorage) /\
  exists bw tw, List.filter isWrite (snd r) = [bw; tw] /\
    isBlockWrite bw = true /\ failure bw = None /\
    isTxnWrite tw = true /\ failure tw = Some Mem.errStorage /\ last (snd r) = Some tw.
Proof.
  intros r.
  destruct (AddToBlockChain_write_order Mem.service Mem.handle Examples.txnFaultWorld
              "alice" "bob" 10 (fst (fst r)) (snd (fst r)) (snd r) eq_refl)
    as (_ & _ & Htxn).
  destruct (Htxn (EvCreateTransaction
                    ["001"%byte; "000"%byte]
                    (ToTxnBytes Mem.TxnAssembler
                       (mkTransaction ["001"%byte; "000"%byte] "alice" "bob" 10 ""))
                    (Some Mem.errStorage))
              Mem.errStorage)
    as (Hres & Hlast & hash & data & out & w3 & w4 & id & txnData & Hw & _);
    [right; right; right; right; left; reflexivity | reflexivity | reflexivity |].
  split; [exact Hres |].
  eexists _, _. split; [reflexivity |].
  repeat split; reflexivity.
Defined.

Lemma AddToBlockChain_error_block_witness :
  run Mem.handle (AddToBlockChain Mem.service "alice" "bob" (-5)) Examples.aliceWorld =
    ((Some zeroBlock, Some Mem.errAmount), Examples.aliceWorld,
     snd (run Mem.handle (AddToBlockChain Mem.service "alice" "bob" (-5))
            Examples.aliceWorld)) /\
  Some zeroBlock <> None /\
  Hash zeroBlock = [] /\ PrevHash zeroBlock = [] /\ Transactions zeroBlock = [].
Proof.
  split; [reflexivity |].
  destruct (AddToBlockChain_error_block Mem.service Mem.handle Examples.aliceWorld
              "alice" "bob" (-5) (Some zeroBlock) (Some Mem.errAmount) _ _ eq_refl)
    as (Hnil & _ & _ & Hzero).
  split; [exact Hnil | exact Hzero].
Defined.

Lemma CreateBlockchain_creates_genesis_witness :
  blockFactoryContract Mem.handle /\ coinbaseContract Mem.handle /\
  storeEchoContract Mem.handle /\ codecContract Mem.service /\
  run Mem.handle (GetGenesisBlock Mem.service) Mem.world0 =
    ((zeroBlock, Some errNoGenesis), Mem.world0, [EvGetBlockchain ([], None)]) /\
  exists coinbaseTxn newBlock,
    fst (fst (fst (fst (run Mem.handle (CreateBlockchain Mem.service "alice") Mem.world0))))
      = Some newBlock /\
    TxTo coinbaseTxn = "alice" /\ TxData coinbaseTxn = coinbaseData /\
    Transactions newBlock = [coinbaseTxn] /\ PrevHash newBlock = [].
Proof.
  split; [exact MemFacts.mem_blockFactory |]. split; [exact MemFacts.mem_coinbase |].
  split; [exact MemFacts.mem_storeEcho |]. split; [exact MemFacts.mem_codec |].
  split; [reflexivity |].
  destruct (CreateBlockchain_creates_genesis Mem.service Mem.handle Mem.world0 "alice"
              zeroBlock errNoGenesis Mem.world0 [EvGetBlockchain ([], None)]
              MemFacts.mem_blockFactory MemFacts.mem_coinbase MemFacts.mem_storeEcho
              MemFacts.mem_codec eq_refl)
    as (coinbaseTxn & newBlock & out & perr & res & w4 & Hrun & Hto & Hdata & Htx & Hprev & Hres).
  exists coinbaseTxn, newBlock.
  split; [| repeat split; assumption].
  destruct perr as [e' |]; subst res.
  - cbv in Hrun. discriminate Hrun.
  - rewrite Hrun. reflexivity.
Defined.

Lemma GetBlockchain_newest_first_witness :
  let blocks := Mem.persisted (Mem.store Examples.bobWorld) in
  sortContract Mem.insertionSort /\
  Mem.handle _ Repo_GetBlockchain Examples.bobWorld = ((blocks, None), Examples.bobWorld) /\
  exists allBlocks,
    run Mem.handle (GetBlockchain Mem.insertionSort Mem.service) Examples.bobWorld =
      ((allBlocks, None), Examples.bobWorld, [EvGetBlockchain (blocks, None)]) /\
    Permutation allBlocks (map (ToBlockStructure (blockAssembler Mem.service)) blocks) /\
    StronglySorted (fun a b => Timestamp a >= Timestamp b) allBlocks /\
    (forall genesis later,
       Permutation (map (ToBlockStructure (blockAssembler Mem.service)) blocks)
         (genesis :: later) ->
       StronglySorted (fun a b => Timestamp a < Timestamp b) (genesis :: later) ->
       last allBlocks = Some genesis).
Proof.
  intros blocks. split; [exact MemFacts.insertionSort_contract |].
  split; [reflexivity |].
  apply (GetBlockchain_newest_first Mem.insertionSort Mem.service Mem.handle
           Examples.bobWorld blocks Examples.bobWorld MemFacts.insertionSort_contract).
  reflexivity.
Defined.

(** C1 fails on the code.  On a fresh store, [CreateBlockchain "alice"]
    creates the genesis block.  When the enumeration inside the next call's
    genesis lookup fails with a storage error, [CreateBlockchain "bob"] takes
    the lookup's error for a missing genesis: it writes a second block with an
    empty previous hash and returns it as newly created.  Both blocks are then
    persisted. *)
Theorem CreateBlockchain_second_genesis_after_failed_lookup :
  let r1 := run Mem.handle (CreateBlockchain Mem.service "alice") Examples.enumFaultWorld in
  let r2 := run Mem.handle (CreateBlockchain Mem.service "bob") (snd (fst r1)) in
  let stored := map (ToBlockStructure Mem.BlockAssembler)
                  (Mem.persisted (Mem.store (snd (fst r2)))) in
  (exists g1 g2,
     fst (fst r1) = (Some g1, false, None) /\
     fst (fst r2) = (Some g2, false, None) /\
     g1 <> g2 /\
     head (snd r2) = Some (EvGetBlockchain ([], Some Mem.errStorage)) /\
     List.filter isWrite (snd r2) =
       [EvCreateBlock (Hash g2) (ToBlockBytes Mem.BlockAssembler g2)
          (ToBlockBytes Mem.BlockAssembler g2, None)] /\
     Permutation stored [g1; g2]) /\
  List.filter isGenesis stored = stored /\ length stored = 2%nat.
Proof.
  intros r1 r2 stored. split.
  - eexists _, _. split; [reflexivity |]. split; [reflexivity |].
    split; [discriminate |]. split; [reflexivity |]. split; [reflexivity |].
    vm_compute. apply perm_swap || reflexivity.
  - split; reflexivity.
Qed.

(** ** More on the lookups *)

Lemma GetGenesisBlock_lookup bc {W} (h : handler W) (w : W) r w1 :
  h _ Repo_GetBlockchain w = (r, w1) ->
  run h (GetGenesisBlock bc) w = (lookup bc r, w1, [EvGetBlockchain r]).
Proof.
  destruct r as [blocks err]. intros E.
  rewrite (GetGenesisBlock_run bc h w blocks err w1 E).
  unfold lookup. simpl. destruct err; reflexivity.
Qed.

Lemma lookup_found bc r genesis :
  lookup bc r = (genesis, None) ->
  snd r = None /\ firstGenesis bc (fst r) = Some genesis /\
  PrevHash genesis = [] /\ Hash genesis <> [].
Proof.
  unfold lookup. destruct r as [blocks [e |]]; simpl; [discriminate |].
  destruct (firstGenesis bc blocks) as [b |] eqn:F; simpl; [| discriminate].
  destruct (firstGenesis_Some _ _ _ F) as (_ & _ & _ & _ & _ & Hp & _).
  rewrite Hp. simpl. destruct (len (Hash b) =? 0) eqn:Hh; simpl; [discriminate |].
  intros [= <-]. repeat split; [exact Hp |].
  intros Hh'. apply len_0 in Hh'. congruence.
Qed.

(** X1.  [GetGenesisBlock] only reads: whatever the repository answers, its
    one call is the enumeration and the world is as that call left it.  When
    the enumeration reports an error, the lookup returns the zero block and
    that same error, whatever blocks came with it. *)
Theorem GetGenesisBlock_only_reads bc {W} (h : handler W) (w : W) :
  let r := fst (h _ Repo_GetBlockchain w) in
  let w1 := snd (h _ Repo_GetBlockchain w) in
  snd (run h (GetGenesisBlock bc) w) = [EvGetBlockchain r] /\
  snd (fst (run h (GetGenesisBlock bc) w)) = w1 /\
  (forall e, snd r = Some e ->
     fst (fst (run h (GetGenesisBlock bc) w)) = (zeroBlock, Some e)).
Proof.
  intros r w1.
  rewrite (GetGenesisBlock_lookup bc h w r w1) by (subst r w1; apply surjective_pairing).
  repeat split. intros e He. simpl. unfold lookup. rewrite He. reflexivity.
Qed.

(** X2.  [GetBlockchain] only reads as well, and on an enumeration error it
    returns no block at all and that same error; the sort is not consulted,
    so this holds for any [sort.Slice]. *)
Theorem GetBlockchain_only_reads sort_Slice bc {W} (h : handler W) (w : W) :
  let r := fst (h _ Repo_GetBlockchain w) in
  let w1 := snd (h _ Repo_GetBlockchain w) in
  snd (run h (GetBlockchain sort_Slice bc) w) = [EvGetBlockchain r] /\
  snd (fst (run h (GetBlockchain sort_Slice bc) w)) = w1 /\
  (forall e, snd r = Some e ->
     fst (fst (run h (GetBlockchain sort_Slice bc) w)) = ([], Some e)).
Proof.
  intros r w1. destruct r as [blocks err] eqn:Er.
  rewrite (GetBlockchain_run sort_Slice bc h w blocks err w1)
    by (rewrite <- Er; subst r w1; apply surjective_pairing).
  repeat split. intros e He. simpl in *. subst err. reflexivity.
Qed.

(** X3.  The genesis block the lookup finds is one of the blocks
    [GetBlockchain] returns from the same store: when [GetGenesisBlock]
    succeeds, [GetBlockchain] succeeds too, with the same single call, and its
    result contains that block. *)
Theorem genesis_in_blockchain sort_Slice bc {W} (h : handler W) (w : W) genesis w1 tr :
  sortContract sort_Slice ->
  run h (GetGenesisBlock bc) w = ((genesis, None), w1, tr) ->
  exists allBlocks,
    run h (GetBlockchain sort_Slice bc) w = ((allBlocks, None), w1, tr) /\
    In genesis allBlocks.
Proof.
  intros Hsort.
  destruct (h _ Repo_GetBlockchain w) as [r w0] eqn:E.
  rewrite (GetGenesisBlock_lookup bc h w r w0 E). intros [= Hl <- <-].
  destruct (lookup_found bc r genesis Hl) as (Herr & Hfirst & _).
  destruct r as [blocks err]. simpl in Herr, Hfirst. subst err.
  rewrite (GetBlockchain_run sort_Slice bc h w blocks None w0 E).
  eexists. split; [reflexivity |].
  destruct (Hsort Block newerFirst (map (ToBlockStructure (blockAssembler bc)) blocks)
              newerFirst_strictWeakOrder) as [HP _].
  eapply Permutation_in; [symmetry; exact HP |].
  destruct (firstGenesis_Some _ _ _ Hfirst) as (pre & data & post & -> & -> & _).
  rewrite map_app. apply in_or_app. right. left. reflexivity.
Qed.

(** ** More on the creation *)

Lemma CreateBlockchain_outcome bc {W} (h : handler W) (w : W) to res w' tr :
  run h (CreateBlockchain bc to) w = (res, w', tr) ->
  CreateOutcome h bc to w res w' tr.
Proof.
  destruct (h _ Repo_GetBlockchain w) as [r w1] eqn:E.
  pose proof (GetGenesisBlock_lookup bc h w r w1 E) as G.
  destruct (lookup bc r) as [genesis [e0 |]] eqn:L.
  - destruct (h _ (TxnSvc_CreateCoinbaseTxn to coinbaseData) w1)
      as [coinbaseTxn w2] eqn:E1.
    destruct (h _ (BlockSvc_CreateBlock [coinbaseTxn] []) w2) as [newBlock w3] eqn:E2.
    destruct (h _ (Repo_CreateBlock (Hash newBlock)
                     (ToBlockBytes (blockAssembler bc) newBlock)) w3)
      as [[out perr] w4] eqn:E3.
    rewrite (CreateBlockchain_missing bc h w to _ _ _ _ _ _ _ _ _ _ _ G E1 E2 E3).
    destruct perr as [e |]; intros [= <- <- <-]; simpl.
    + eapply GenesisWriteFailed; eassumption.
    + eapply GenesisCreated; eassumption.
  - rewrite (CreateBlockchain_found bc h w to genesis w1 _ G).
    destruct (lookup_found bc r genesis L) as (_ & _ & Hp & _).
    rewrite (proj2 (isGenesis_true genesis) Hp).
    intros [= <- <- <-]. eapply GenesisFound; eassumption.
Qed.

(** X4.  [CreateBlockchain] never stores a transaction (the coinbase
    transaction is persisted only inside its block) and never reads the
    last-block pointer; it attempts at most one write, and a write it attempts
    is a block write and its last call. *)
Theorem CreateBlockchain_writes bc {W} (h : handler W) (w : W) to :
  let tr := snd (run h (CreateBlockchain bc to) w) in
  Forall (fun ev => isTxnWrite ev = false /\ isLastBlockRead ev = false) tr /\
  (List.filter isWrite tr = [] \/
   exists bw, List.filter isWrite tr = [bw] /\ isBlockWrite bw = true /\
              last tr = Some bw).
Proof.
  intros tr.
  destruct (run h (CreateBlockchain bc to) w) as [[res w'] tr0] eqn:Hrun.
  subst tr. simpl. apply CreateBlockchain_outcome in Hrun.
  inversion Hrun; subst; clear Hrun;
    repeat match goal with x := _ |- _ => subst x end.
  - split; [repeat constructor | left; reflexivity].
  - split; [repeat constructor |].
    right. eexists. repeat split.
  - split; [repeat constructor |].
    right. eexists. repeat split.
Qed.

(** X5.  [CreateBlockchain] returns an error exactly when its block write
    failed, and then that write's error with a nil block and the flag false.
    An error of the genesis lookup is never returned.  The block is nil
    exactly when an error is returned. *)
Theorem CreateBlockchain_error_is_write_error bc {W} (h : handler W) (w : W) to
    ptr flag err w' tr :
  run h (CreateBlockchain bc to) w = ((ptr, flag, err), w', tr) ->
  (forall e, err = Some e <->
     exists hash data out, last tr = Some (EvCreateBlock hash data (out, Some e))) /\
  (ptr = None <-> err <> None) /\
  (err <> None -> flag = false).
Proof.
  intros Hrun. apply CreateBlockchain_outcome in Hrun.
  inversion Hrun; subst; clear Hrun;
    repeat match goal with x := _ |- _ => subst x end.
  - split; [| split].
    + intros e. split; [discriminate |]. intros (? & ? & ? & H). discriminate.
    + split; [discriminate | intros H; contradiction].
    + intros H. contradiction.
  - split; [| split].
    + intros e. split; [discriminate |]. intros (? & ? & ? & H). discriminate.
    + split; [discriminate | intros H; contradiction].
    + intros H. contradiction.
  - split; [| split].
    + intros e'. split.
      * intros [= <-]. eexists _, _, _. reflexivity.
      * intros (? & ? & ? & H). simpl in H. congruence.
    + split; [discriminate | reflexivity].
    + reflexivity.
Qed.

(** X6.  The flag tells whether the genesis lookup succeeded, and nothing
    else: it is true exactly when [GetGenesisBlock] on the same world returns
    no error, which is exactly when [CreateBlockchain] attempts no write; the
    block returned with a true flag has an empty previous hash and a
    non-empty hash. *)
Theorem CreateBlockchain_flag_is_lookup_success bc {W} (h : handler W) (w : W) to
    ptr flag err w' tr :
  run h (CreateBlockchain bc to) w = ((ptr, flag, err), w', tr) ->
  (flag = true <-> snd (fst (fst (run h (GetGenesisBlock bc) w))) = None) /\
  (flag = true <-> List.filter isWrite tr = []) /\
  (flag = true ->
     exists genesis, ptr = Some genesis /\ PrevHash genesis = [] /\ Hash genesis <> []).
Proof.
  intros Hrun. apply CreateBlockchain_outcome in Hrun.
  inversion Hrun; subst; clear Hrun;
    repeat match goal with x := _ |- _ => subst x end;
    match goal with
    | E : h _ Repo_GetBlockchain w = _ |- _ =>
        rewrite (GetGenesisBlock_lookup bc h w _ _ E)
    end;
    match goal with L : lookup bc _ = _ |- _ => rewrite L; simpl end.
  - repeat split; try reflexivity.
    intros _. exists genesis.
    match goal with L : lookup bc _ = _ |- _ =>
      destruct (lookup_found bc _ _ L) as (_ & _ & Hp & Hh) end.
    repeat split; assumption.
  - repeat split; try discriminate.
  - repeat split; try discriminate.
Qed.

(** X7.  A storage error during the genesis lookup is not reported.  When
    the enumeration fails, [CreateBlockchain] goes on to build a coinbase
    block with an empty previous hash and to write it; if that write succeeds
    the call returns the written block, decoded, with the flag false and no
    error, whatever the store already holds. *)
Theorem CreateBlockchain_creates_after_storage_error bc {W} (h : handler W) (w : W) to
    blocks e0 w1 coinbaseTxn w2 newBlock w3 out w4 :
  h _ Repo_GetBlockchain w = ((blocks, Some e0), w1) ->
  h _ (TxnSvc_CreateCoinbaseTxn to coinbaseData) w1 = (coinbaseTxn, w2) ->
  h _ (BlockSvc_CreateBlock [coinbaseTxn] []) w2 = (newBlock, w3) ->
  h _ (Repo_CreateBlock (Hash newBlock) (ToBlockBytes (blockAssembler bc) newBlock)) w3
    = ((out, None), w4) ->
  run h (CreateBlockchain bc to) w =
  ((Some (ToBlockStructure (blockAssembler bc) out), false, None), w4,
   [EvGetBlockchain (blocks, Some e0);
    EvNewCoinbaseTxn to coinbaseData coinbaseTxn;
    EvNewBlock [coinbaseTxn] [] newBlock;
    EvCreateBlock (Hash newBlock) (ToBlockBytes (blockAssembler bc) newBlock) (out, None)]).
Proof.
  intros E E1 E2 E3.
  pose proof (GetGenesisBlock_lookup bc h w _ _ E) as G. unfold lookup in G. simpl in G.
  rewrite (CreateBlockchain_missing bc h w to _ _ _ _ _ _ _ _ _ _ _ G E1 E2 E3).
  reflexivity.
Qed.

(** ** More on the append *)

(** X8.  When the transaction factory rejects the transfer,
    [AddToBlockChain] returns the zero block and the factory's error
    unchanged; no block is built and nothing is written. *)
Theorem AddToBlockChain_rejected_transaction bc {W} (h : handler W) (w : W)
    from to amount lastBlock w1 newTxn e w2 :
  h _ Repo_GetBlock w = ((lastBlock, None), w1) ->
  h _ (TxnSvc_CreateTransaction from to amount) w1 = ((newTxn, Some e), w2) ->
  exists tr,
    run h (AddToBlockChain bc from to amount) w = ((Some zeroBlock, Some e), w2, tr) /\
    tr = [EvGetBlock (lastBlock, None); EvNewTransaction from to amount (newTxn, Some e)] /\
    Forall (fun ev => isWrite ev = false) tr.
Proof.
  intros E1 E2. eexists. split; [| split; [reflexivity |]].
  - apply AddOutcome_run. econstructor; eassumption.
  - repeat constructor.
Qed.

(** ** The handlers *)

Lemma HandleCreateBlockchain_run {BlockMap} bc (ToBlockMap : Block -> BlockMap)
    {W} (h : handler W) (w : W) input ptr flag err w' tr :
  run h (CreateBlockchain bc (Handlers.CreateBlockchainInput_To input)) w
    = ((ptr, flag, err), w', tr) ->
  run h (Handlers.CreateBlockchain bc ToBlockMap input None) w =
  (match err with
   | Some e => Some [Handlers.JSON Handlers.StatusNotFound
                       {[ "error" := Handlers.VString e ]}]
   | None =>
       match ptr with
       | None => None
       | Some genesis =>
           if flag
           then Some [Handlers.JSON Handlers.StatusOK
                        {[ "message" := Handlers.VString "Blockchain already exists." ]}]
           else Some [Handlers.JSON Handlers.StatusCreated
                        (<[ "data" := Handlers.VBlock (ToBlockMap genesis) ]>
                           {[ "message" := Handlers.VString "Blockchain created." ]})]
       end
   end, w', tr).
Proof.
  intros E. unfold Handlers.CreateBlockchain, mbind, prog_bind.
  rewrite run_bind. unfold error in *. rewrite E.
  destruct err as [e |]; [| destruct ptr as [g |]; [destruct flag |]];
    simpl; rewrite app_nil_r; reflexivity.
Qed.

(** X9.  The [CreateBlockchain] handler always answers, once, and never
    panics on the block pointer it dereferences.  A body that does not bind
    gets 400 with the binding error and the service is not called.  Otherwise
    the answer tells what happened to the store: 200 with only a message when
    nothing was written, 201 with the block the repository handed back when
    the genesis block was written, 404 with the write's error when that write
    failed. *)
Theorem HandleCreateBlockchain_answers {BlockMap} bc (ToBlockMap : Block -> BlockMap)
    {W} (h : handler W) (w : W) input bindErr :
  let r := run h (Handlers.CreateBlockchain bc ToBlockMap input bindErr) w in
  let tr := snd r in
  exists resp,
    fst (fst r) = Some [resp] /\
    match bindErr with
    | Some e =>
        resp = Handlers.JSON Handlers.StatusBadRequest {[ "error" := Handlers.VString e ]} /\
        tr = [] /\ snd (fst r) = w
    | None =>
        (List.filter isWrite tr = [] /\
         resp = Handlers.JSON Handlers.StatusOK
                  {[ "message" := Handlers.VString "Blockchain already exists." ]}) \/
        (exists hash data out,
           last tr = Some (EvCreateBlock hash data (out, None)) /\
           resp = Handlers.JSON Handlers.StatusCreated
                    (<[ "data" := Handlers.VBlock
                                    (ToBlockMap (ToBlockStructure (blockAssembler bc) out)) ]>
                       {[ "message" := Handlers.VString "Blockchain created." ]})) \/
        (exists hash data out e,
           last tr = Some (EvCreateBlock hash data (out, Some e)) /\
           resp = Handlers.JSON Handlers.StatusNotFound
                    {[ "error" := Handlers.VString e ]})
    end.
Proof.
  intros r tr. subst tr r. destruct bindErr as [e |].
  - eexists. split; [reflexivity |]. repeat split.
  - destruct (run h (CreateBlockchain bc (Handlers.CreateBlockchainInput_To input)) w)
      as [[[[ptr flag] err] w'] tr] eqn:Hrun.
    rewrite (HandleCreateBlockchain_run bc ToBlockMap h w input _ _ _ _ _ Hrun).
    apply CreateBlockchain_outcome in Hrun.
    inversion Hrun; subst; clear Hrun;
      repeat match goal with x := _ |- _ => subst x end;
      eexists; (split; [reflexivity |]); cbn [snd].
    + left. split; reflexivity.
    + right. left. eexists _, _, _. split; reflexivity.
    + right. right. eexists _, _, _, _. split; reflexivity.
Qed.

Lemma HandleAddToBlockchain_run {BlockMap} bc (ToBlockMap : Block -> BlockMap)
    {W} (h : handler W) (w : W) input ptr err w' tr :
  run h (AddToBlockChain bc (Handlers.CreateBlockInput_From input)
           (Handlers.CreateBlockInput_To input) (Handlers.CreateBlockInput_Amount input)) w
    = ((ptr, err), w', tr) ->
  run h (Handlers.AddToBlockchain bc ToBlockMap input None) w =
  (match err with
   | Some e => Some [Handlers.JSON Handlers.StatusNotFound
                       {[ "error" := Handlers.VString e ]}]
   | None =>
       match ptr with
       | None => None
       | Some newBlock =>
           Some [Handlers.JSON Handlers.StatusCreated
                   {[ "data" := Handlers.VBlock (ToBlockMap newBlock) ]}]
       end
   end, w', tr).
Proof.
  intros E. unfold Handlers.AddToBlockchain, mbind, prog_bind.
  rewrite run_bind. unfold error in *. rewrite E.
  destruct err as [e |]; [| destruct ptr as [g |]];
    simpl; rewrite app_nil_r; reflexivity.
Qed.

(** X10.  The [AddToBlockchain] handler always answers, once, and never
    panics.  A body that does not bind gets 400 and the service is not
    called.  Otherwise it answers 201 with the new block exactly when the
    transaction write, the service's last call, succeeded; and in every other
    case 404 with the error of the call that failed, behind the
    not-initialised text when that call was the read of the last block. *)
Theorem HandleAddToBlockchain_answers {BlockMap} bc (ToBlockMap : Block -> BlockMap)
    {W} (h : handler W) (w : W) input bindErr :
  let r := run h (Handlers.AddToBlockchain bc ToBlockMap input bindErr) w in
  let tr := snd r in
  exists resp,
    fst (fst r) = Some [resp] /\
    match bindErr with
    | Some e =>
        resp = Handlers.JSON Handlers.StatusBadRequest {[ "error" := Handlers.VString e ]} /\
        tr = [] /\ snd (fst r) = w
    | None =>
        (exists id data txns prevHash newBlock,
           last tr = Some (EvCreateTransaction id data None) /\
           In (EvNewBlock txns prevHash newBlock) tr /\
           resp = Handlers.JSON Handlers.StatusCreated
                    {[ "data" := Handlers.VBlock (ToBlockMap newBlock) ]}) \/
        (exists ev e,
           last tr = Some ev /\ failure ev = Some e /\
           resp = Handlers.JSON Handlers.StatusNotFound
                    {[ "error" := Handlers.VString
                                    (match ev with
                                     | EvGetBlock _ => errNoLastBlock e
                                     | _ => e
                                     end) ]})
    end.
Proof.
  intros r tr. subst tr r. destruct bindErr as [e |].
  - eexists. split; [reflexivity |]. repeat split.
  - destruct (run h (AddToBlockChain bc (Handlers.CreateBlockInput_From input)
                       (Handlers.CreateBlockInput_To input)
                       (Handlers.CreateBlockInput_Amount input)) w)
      as [[[ptr err] w'] tr] eqn:Hrun.
    rewrite (HandleAddToBlockchain_run bc ToBlockMap h w input _ _ _ _ Hrun).
    apply AddToBlockChain_outcome in Hrun.
    inversion Hrun; subst; clear Hrun;
      repeat match goal with x := _ |- _ => subst x end;
      eexists; (split; [reflexivity |]); cbn [snd].
    + right. eexists _, _. repeat split.
    + right. eexists _, _. repeat split.
    + right. eexists _, _. repeat split.
    + right. eexists _, _. repeat split.
    + left. eexists _, _, _, _, _. split; [reflexivity |].
      split; [right; right; left; reflexivity | reflexivity].
Qed.

Lemma blockMaps_map {BlockMap} (ToBlockMap : Block -> BlockMap) blockchain data :
  Handlers.blockMaps ToBlockMap blockchain data = data ++ map ToBlockMap blockchain.
Proof.
  revert data. induction blockchain as [| block rest IH]; intros data; simpl.
  - rewrite app_nil_r. reflexivity.
  - rewrite IH, <- app_assoc. reflexivity.
Qed.

(** X11.  The [GetBlockchain] handler always answers, once, after the one
    enumeration the service makes.  It answers 500 with the repository's error
    when the enumeration failed; otherwise 200 with one entry per persisted
    block, in the service's order, newest first, and an empty list (not a
    missing key) when nothing is persisted. *)
Theorem HandleGetBlockchain_answers {BlockMap} sort_Slice bc
    (ToBlockMap : Block -> BlockMap) {W} (h : handler W) (w : W) :
  sortContract sort_Slice ->
  let r := run h (Handlers.GetBlockchain sort_Slice bc ToBlockMap) w in
  let enumerated := fst (h _ Repo_GetBlockchain w) in
  exists resp,
    fst (fst r) = Some [resp] /\
    snd r = [EvGetBlockchain enumerated] /\
    match snd enumerated with
    | Some e =>
        resp = Handlers.JSON Handlers.StatusInternalServerError
                 {[ "error" := Handlers.VString e ]}
    | None =>
        exists allBlocks,
          resp = Handlers.JSON Handlers.StatusOK
                   {[ "data" := Handlers.VBlocks (map ToBlockMap allBlocks) ]} /\
          Permutation allBlocks
            (map (ToBlockStructure (blockAssembler bc)) (fst enumerated)) /\
          StronglySorted (fun a b => Timestamp a >= Timestamp b) allBlocks /\
          length allBlocks = length (fst enumerated) /\
          (fst enumerated = [] -> allBlocks = [])
    end.
Proof.
  intros Hsort r enumerated. subst r enumerated.
  destruct (h _ Repo_GetBlockchain w) as [[blocks err] w1] eqn:E.
  unfold Handlers.GetBlockchain, mbind, prog_bind.
  rewrite run_bind.
  pose proof (GetBlockchain_run sort_Slice bc h w blocks err w1 E) as G.
  unfold error in *. rewrite G. clear G.
  destruct err as [e |]; simpl.
  - eexists. repeat split.
  - eexists. split; [reflexivity |]. split; [reflexivity |].
    rewrite blockMaps_map. simpl.
    destruct (Hsort Block newerFirst (map (ToBlockStructure (blockAssembler bc)) blocks)
                newerFirst_strictWeakOrder) as [HP HS].
    eexists. split; [reflexivity |]. split; [exact HP |]. split; [| split].
    + eapply StronglySorted_weaken; [| exact HS]. cbv beta.
      intros a b H. unfold newerFirst in H. rewrite Z.gtb_ltb in H.
      apply Z.ltb_ge in H. lia.
    + rewrite (Permutation_length HP), length_map. reflexivity.
    + intros ->. simpl in HP. apply Permutation_nil. symmetry. exact HP.
Qed.

(** ** The operations together, on the in-memory store *)

Lemma mem_digest_clock ts1 p1 txs1 ts2 p2 txs2 :
  ts1 <> ts2 -> Mem.digest ts1 p1 txs1 <> Mem.digest ts2 p2 txs2.
Proof.
  unfold Mem.digest. intros Hts H. apply app_inj_tail in H. destruct H as [H _].
  apply (f_equal Mem.Z_of_bytes) in H. rewrite !MemFacts.Z_of_to_bytes in H.
  contradiction.
Qed.

(** X13.  On a store with no block and no fault to come, when the clock moves
    between the two blocks, [CreateBlockchain] followed by [AddToBlockChain]
    with a valid amount gives a chain of two: the new block's previous hash
    is the genesis block's hash and its timestamp is later, [GetGenesisBlock]
    then returns the genesis block that was created, and [GetBlockchain]
    returns the new block followed by the genesis block.  Nothing is said
    here for two blocks with the same timestamp. *)
Theorem mem_create_then_append (w : Mem.World) to from to' amount :
  Mem.blocks (Mem.store w) = ∅ ->
  Mem.enumFaults w = [] -> Mem.writeFaults w = [] ->
  0 < fst (Mem.nextTick (Mem.ticks w)) ->
  0 <= amount ->
  exists genesis w1 tr1 newBlock w2 tr2,
    run Mem.handle (CreateBlockchain Mem.service to) w
      = ((Some genesis, false, None), w1, tr1) /\
    run Mem.handle (AddToBlockChain Mem.service from to' amount) w1
      = ((Some newBlock, None), w2, tr2) /\
    PrevHash newBlock = Hash genesis /\
    Timestamp genesis < Timestamp newBlock /\
    fst (fst (run Mem.handle (GetGenesisBlock Mem.service) w2)) = (genesis, None) /\
    fst (fst (run Mem.handle (GetBlockchain Mem.insertionSort Mem.service) w2))
      = ([newBlock; genesis], None).
Proof.
  intros Hb Hef Hwf Htick Hamount.
  destruct w as [[bl tx lb] ef wf c n tk]. simpl in Hb, Hef, Hwf, Htick. subst bl ef wf.
  set (d := fst (Mem.nextTick tk)) in *.
  set (tk1 := snd (Mem.nextTick tk)).
  set (t0 := mkTransaction (Mem.Z_to_bytes n) "" to 0 coinbaseData).
  set (g := mkBlock c (Mem.digest c [] [t0]) [] [t0]).
  set (t1 := mkTransaction (Mem.Z_to_bytes (n + 1)) from to' amount "").
  set (b := mkBlock (c + d) (Mem.digest (c + d) (Hash g) [t1]) (Hash g) [t1]).
  set (encg := ToBlockBytes Mem.BlockAssembler g).
  set (encb := ToBlockBytes Mem.BlockAssembler b).
  set (w1 := Mem.mkWorld (Mem.mkStore {[ Hash g := encg ]} tx (Some (Hash g)))
               [] [] (c + d) (n + 1) tk1).
  set (w2 := Mem.mkWorld
               (Mem.mkStore (<[ Hash b := encb ]> {[ Hash g := encg ]})
                  (<[ ID t1 := ToTxnBytes Mem.TxnAssembler t1 ]> tx) (Some (Hash b)))
               [] [] (c + d + fst (Mem.nextTick tk1)) (n + 1 + 1)
               (snd (Mem.nextTick tk1))).
  assert (Hdec_g : ToBlockStructure Mem.BlockAssembler encg = g)
    by apply MemFacts.mem_codec.
  assert (Hdec_b : ToBlockStructure Mem.BlockAssembler encb = b)
    by apply MemFacts.mem_codec.
  assert (Hneq : Hash b <> Hash g) by (apply mem_digest_clock; lia).
  exists g, w1. eexists. exists b, w2. eexists.
  split; [| split; [| split; [reflexivity | split; [simpl; lia |]]]].
  - (* the creation *)
    assert (G : run Mem.handle (GetGenesisBlock Mem.service)
                  (Mem.mkWorld (Mem.mkStore ∅ tx lb) [] [] c n tk) =
                ((zeroBlock, Some errNoGenesis),
                 Mem.mkWorld (Mem.mkStore ∅ tx lb) [] [] c n tk,
                 [EvGetBlockchain ([], None)])).
    { apply (GetGenesisBlock_lookup Mem.service Mem.handle _ ([], None)).
      simpl. unfold Mem.repoGetBlockchain, Mem.persisted. simpl.
      rewrite map_to_list_empty. reflexivity. }
    rewrite (CreateBlockchain_missing Mem.service Mem.handle _ to _ _ _ _
               t0 _ g _ encg None w1 G eq_refl eq_refl eq_refl).
    change (blockAssembler Mem.service) with Mem.BlockAssembler.
    rewrite Hdec_g. reflexivity.
  - (* the append *)
    apply AddOutcome_run.
    assert (E1 : Mem.handle _ Repo_GetBlock w1 = ((encg, None), w1)).
    { simpl. unfold Mem.repoGetBlock. simpl. rewrite lookup_singleton_eq. reflexivity. }
    assert (E2 : Mem.handle _ (TxnSvc_CreateTransaction from to' amount) w1 =
                 ((t1, None),
                  Mem.mkWorld (Mem.store w1) [] [] (c + d) (n + 1 + 1) tk1)).
    { simpl. unfold Mem.createTransaction.
      destruct (amount <? 0) eqn:Ha; [apply Z.ltb_lt in Ha; lia | reflexivity]. }
    eapply (Added Mem.handle Mem.service from to' amount w1 encg w1 t1 _ b _ encb);
      [exact E1 | exact E2 | |  | ].
    + change (blockAssembler Mem.service) with Mem.BlockAssembler.
      rewrite Hdec_g. reflexivity.
    + reflexivity.
    + reflexivity.
  - (* the lookups *)
    assert (HP : Permutation (Mem.persisted (Mem.store w2)) [encb; encg]).
    { unfold Mem.persisted. simpl.
      rewrite map_to_list_insert
        by (apply lookup_singleton_ne; intros Heq; apply Hneq; symmetry; exact Heq).
      rewrite map_to_list_singleton. reflexivity. }
    assert (E : Mem.handle _ Repo_GetBlockchain w2
                = ((Mem.persisted (Mem.store w2), None), w2)) by reflexivity.
    assert (HPd : Permutation
                    (map (ToBlockStructure (blockAssembler Mem.service))
                       (Mem.persisted (Mem.store w2))) [b; g]).
    { rewrite HP.
      change (Permutation [ToBlockStructure Mem.BlockAssembler encb;
                           ToBlockStructure Mem.BlockAssembler encg] [b; g]).
      rewrite Hdec_b, Hdec_g. reflexivity. }
    split.
    + rewrite (GetGenesisBlock_lookup Mem.service Mem.handle w2 _ _ E). cbn [fst].
      unfold lookup. cbn [fst snd].
      assert (F : firstGenesis Mem.service (Mem.persisted (Mem.store w2)) = Some g).
      { assert (Hgb : isGenesis b = false).
        { destruct (isGenesis b) eqn:X; [| reflexivity].
          apply isGenesis_true in X. exfalso.
          exact (MemFacts.digest_nonempty _ _ _ X). }
        unfold firstGenesis.
        rewrite <- (find_Permutation_unique isGenesis [b; g]); [| symmetry; exact HPd |].
        - cbn [List.find]. rewrite Hgb. reflexivity.
        - cbn [List.filter]. rewrite Hgb. simpl. lia. }
      rewrite F. cbn [default from_option id].
      destruct (len (Hash g) =? 0) eqn:Hl; [| reflexivity].
      apply len_0 in Hl. exfalso. exact (MemFacts.digest_nonempty _ _ _ Hl).
    + rewrite (GetBlockchain_run Mem.insertionSort Mem.service Mem.handle w2 _ _ _ E).
      cbn [fst]. f_equal.
      destruct (MemFacts.insertionSort_contract Block newerFirst
                  (map (ToBlockStructure (blockAssembler Mem.service))
                     (Mem.persisted (Mem.store w2))) newerFirst_strictWeakOrder)
        as [HPs HS].
      pose proof (Permutation_sym (Permutation_trans HPs HPd)) as HPs'.
      apply Permutation_length_2_inv in HPs'.
      destruct HPs' as [-> | Hswap]; [reflexivity |].
      rewrite Hswap in HS. apply StronglySorted_inv in HS. destruct HS as [_ HS].
      apply List.Forall_inv in HS. unfold newerFirst in HS. simpl in HS.
      rewrite Z.gtb_ltb in HS. apply Z.ltb_ge in HS. lia.
Qed.

(** ** The further properties at concrete worlds *)

Lemma genesis_in_blockchain_witness :
  sortContract Mem.insertionSort /\
  exists genesis allBlocks,
    fst (fst (run Mem.handle (GetGenesisBlock Mem.service) Examples.bobWorld))
      = (genesis, None) /\
    fst (fst (run Mem.handle (GetBlockchain Mem.insertionSort Mem.service)
                Examples.bobWorld)) = (allBlocks, None) /\
    In genesis allBlocks.
Proof.
  split; [exact MemFacts.insertionSort_contract |].
  destruct (genesis_in_blockchain Mem.insertionSort Mem.service Mem.handle
              Examples.bobWorld _ _ _ MemFacts.insertionSort_contract eq_refl)
    as (allBlocks & Hrun & Hin).
  eexists _, allBlocks. split; [reflexivity |]. split; [rewrite Hrun; reflexivity |].
  exact Hin.
Defined.

Lemma CreateBlockchain_error_is_write_error_witness :
  fst (fst (run Mem.handle (CreateBlockchain Mem.service "alice")
              MoreExamples.writeFaultWorld)) = (None, false, Some Mem.errStorage) /\
  ((None : option Block) = None <-> Some Mem.errStorage <> None).
Proof.
  split; [reflexivity |].
  exact (proj1 (proj2 (CreateBlockchain_error_is_write_error Mem.service Mem.handle
                         MoreExamples.writeFaultWorld "alice"
                         None false (Some Mem.errStorage) _ _ eq_refl))).
Defined.

Lemma CreateBlockchain_flag_is_lookup_success_witness :
  exists genesis,
    fst (fst (run Mem.handle (CreateBlockchain Mem.service "carol") Examples.aliceWorld))
      = (Some genesis, true, None) /\
    (true = true <->
     snd (fst (fst (run Mem.handle (GetGenesisBlock Mem.service) Examples.aliceWorld)))
       = None).
Proof.
  eexists. split; [reflexivity |].
  exact (proj1 (CreateBlockchain_flag_is_lookup_success Mem.service Mem.handle
                  Examples.aliceWorld "carol" _ true None _ _ eq_refl)).
Defined.

Lemma CreateBlockchain_creates_after_storage_error_witness :
  fst (Mem.handle _ Repo_GetBlockchain MoreExamples.lookupFaultWorld)
    = ([], Some Mem.errStorage) /\
  Mem.persisted (Mem.store MoreExamples.lookupFaultWorld) <> [] /\
  exists created,
    fst (fst (run Mem.handle (CreateBlockchain Mem.service "bob")
                MoreExamples.lookupFaultWorld)) = (Some created, false, None).
Proof.
  split; [reflexivity |]. split; [discriminate |].
  eexists.
  rewrite (CreateBlockchain_creates_after_storage_error Mem.service Mem.handle
             MoreExamples.lookupFaultWorld "bob" _ _ _ _ _ _ _ _ _
             eq_refl eq_refl eq_refl eq_refl).
  reflexivity.
Defined.

Lemma AddToBlockChain_rejected_transaction_witness :
  exists lastBlock newTxn,
    Mem.handle _ Repo_GetBlock Examples.aliceWorld
      = ((lastBlock, None), Examples.aliceWorld) /\
    Mem.handle _ (TxnSvc_CreateTransaction "alice" "bob" (-5)) Examples.aliceWorld
      = ((newTxn, Some Mem.errAmount), Examples.aliceWorld) /\
    exists tr,
      run Mem.handle (AddToBlockChain Mem.service "alice" "bob" (-5)) Examples.aliceWorld
        = ((Some zeroBlock, Some Mem.errAmount), Examples.aliceWorld, tr) /\
      Forall (fun ev => isWrite ev = false) tr.
Proof.
  eexists _, _. split; [reflexivity |]. split; [reflexivity |].
  destruct (AddToBlockChain_rejected_transaction Mem.service Mem.handle
              Examples.aliceWorld "alice" "bob" (-5) _ _ _ _ _ eq_refl eq_refl)
    as (tr & Hrun & _ & Hw).
  exists tr. split; [exact Hrun | exact Hw].
Defined.

Lemma HandleGetBlockchain_answers_witness :
  sortContract Mem.insertionSort /\
  exists resp allBlocks,
    fst (fst (run Mem.handle
                (Handlers.GetBlockchain Mem.insertionSort Mem.service Hash)
                Examples.bobWorld)) = Some [resp] /\
    resp = Handlers.JSON Handlers.StatusOK
             {[ "data" := Handlers.VBlocks (map Hash allBlocks) ]} /\
    length allBlocks = 2%nat.
Proof.
  split; [exact MemFacts.insertionSort_contract |].
  destruct (HandleGetBlockchain_answers Mem.insertionSort Mem.service Hash Mem.handle
              Examples.bobWorld MemFacts.insertionSort_contract)
    as (resp & Hresp & _ & H).
  change (snd (fst (Mem.handle _ Repo_GetBlockchain Examples.bobWorld)))
    with (@None error) in H.
  destruct H as (allBlocks & Hr & _ & _ & Hlen & _).
  exists resp, allBlocks. split; [exact Hresp |]. split; [exact Hr |].
  rewrite Hlen. reflexivity.
Defined.

Lemma genesis_unique_when_lookups_succeed_witness :
  Mem.blocks (Mem.store Mem.world0) = ∅ /\ Mem.enumFaults Mem.world0 = [] /\
  exists rs w',
    Mem.createAll ["alice"; "bob"; "carol"] Mem.world0 = (rs, w') /\
    (length (List.filter isGenesis
               (map (ToBlockStructure Mem.BlockAssembler)
                  (Mem.persisted (Mem.store w')))) <= 1)%nat.
Proof.
  split; [reflexivity |]. split; [reflexivity |].
  destruct (MemFacts.genesis_unique_when_lookups_succeed ["alice"; "bob"; "carol"]
              Mem.world0 eq_refl eq_refl) as (rs & w' & Hrun & Hlen & _).
  exists rs, w'. split; [exact Hrun | exact Hlen].
Defined.

Lemma mem_create_then_append_witness :
  exists genesis newBlock,
    fst (fst (run Mem.handle (CreateBlockchain Mem.service "alice") Mem.world0))
      = (Some genesis, false, None) /\
    fst (fst (run Mem.handle (AddToBlockChain Mem.service "alice" "bob" 10)
                Examples.aliceWorld)) = (Some newBlock, None) /\
    PrevHash newBlock = Hash genesis /\
    fst (fst (run Mem.handle (GetBlockchain Mem.insertionSort Mem.service)
                Examples.bobWorld)) = ([newBlock; genesis], None).
Proof.
  destruct (mem_create_then_append Mem.world0 "alice" "alice" "bob" 10
              eq_refl eq_refl eq_refl eq_refl ltac:(lia))
    as (genesis & w1 & tr1 & newBlock & w2 & tr2 & H1 & H2 & H3 & _ & _ & H5).
  exists genesis, newBlock.
  assert (Hw1 : w1 = Examples.aliceWorld).
  { unfold Examples.aliceWorld. rewrite H1. reflexivity. }
  subst w1.
  assert (Hw2 : w2 = Examples.bobWorld).
  { unfold Examples.bobWorld. rewrite H2. reflexivity. }
  subst w2.
  split; [rewrite H1; reflexivity |]. split; [rewrite H2; reflexivity |].
  split; [exact H3 | exact H5].
Defined.

Lemma mem_block_kept_when_txn_write_fails_witness :
  let r := run Mem.handle (AddToBlockChain Mem.service "alice" "bob" 10)
             Examples.txnFaultWorld in
  fst (fst r) = (Some zeroBlock, Some Mem.errStorage) /\
  exists newBlock,
    Mem.blocks (Mem.store (snd (fst r))) !! Hash newBlock
      = Some (ToBlockBytes Mem.BlockAssembler newBlock) /\
    Mem.lastBlock (Mem.store (snd (fst r))) = Some (Hash newBlock) /\
    Mem.txns (Mem.store (snd (fst r))) = Mem.txns (Mem.store Examples.txnFaultWorld).
Proof.
  intros r. split; [reflexivity |].
  destruct (MemFacts.mem_block_kept_when_txn_write_fails Examples.txnFaultWorld
              "alice" "bob" 10 (fst (fst r)) (snd (fst r)) (snd r)
              (EvCreateTransaction
                 ["001"%byte; "000"%byte]
                 (ToTxnBytes Mem.TxnAssembler
                    (mkTransaction ["001"%byte; "000"%byte] "alice" "bob" 10 ""))
                 (Some Mem.errStorage))
              Mem.errStorage eq_refl)
    as (txns0 & prevHash & newBlock & _ & Hb & Hl & Ht);
    [right; right; right; right; left; reflexivity | reflexivity | reflexivity |].
  exists newBlock. split; [exact Hb |]. split; [exact Hl | exact Ht].
Defined.
